(** * global-functions.js: a shallow embedding and its properties

    The file [src/scripts/global-functions.js] is the client-side utility
    layer of the extension: record-access helpers that forward one request
    each to the service worker, the duration formatter, two watch-time
    helpers, the watch-mode lookup, the notification banner and the
    redirect.

    Conventions of the embedding.
    - JavaScript numbers that hold integers are [Z].  This is the code on
      the safe integers, of magnitude at most [MAX_SAFE_INTEGER] = 2^53 - 1:
      there they are printed in full decimal, sums and differences that stay
      safe are exact, and [Math.floor (a / b)] for b = 60 or 3600 is [Z.div]
      (the rounded quotient never reaches the next integer).  Every
      statement that depends on arithmetic carries that bound.  Beyond it
      the code computes on binary64 values and departs from the integers;
      module [Binary64] embeds the arithmetic of the code on the binary64
      values of [SpecFloat] for those inputs.  Fractions and infinities are outside the
      integer model; [NaN] is a value of its own because arithmetic on
      absent fields produces it.
    - An [async] function is a computation in the monad [M]: it reads the
      environment (the worker and the clock), threads the console and the
      list of messages sent, and ends either with a value (the promise
      resolves) or with a thrown value (the promise rejects).  [await] on a
      rejected promise throws.  A worker that never answers is not
      modelled.
    - [displayNotifications] is the list of jQuery calls it makes; the
      banner they act on is one icon and one paragraph inside the region,
      with the effects queue of the region. *)

From Stdlib Require Import ZArith List Bool Lia Permutation.
From Stdlib Require Import Strings.String Strings.Ascii.
From Stdlib Require Import Numbers.DecimalString.
From Stdlib Require Import SpecFloat.
Import ListNotations.

Open Scope string_scope.
Open Scope Z_scope.

(** ** Decimal rendering of integers *)

Module Render.

(** [String(n)] and [`${n}`] for an integer-valued number: the digits the
    engine prints for a safe integer.  (Beyond 2^53 the engine prints the
    shortest digits that read back as the same binary64 value.) *)
Definition string_of_Z (n : Z) : string :=
  NilZero.string_of_int (Z.to_int n).

Definition minus_sign : ascii := "-"%char.

(** Does the string contain a minus sign? *)
Fixpoint has_minus (s : string) : bool :=
  match s with
  | EmptyString => false
  | String c r => Ascii.eqb c minus_sign || has_minus r
  end.

(** The digit character of [d], for [0 <= d <= 9]. *)
Definition digit (d : Z) : string :=
  String (ascii_of_nat (48 + Z.to_nat d)) EmptyString.

End Render.

Export Render.

(** ** Time formatting *)

Module TimeText.

(** The result of a call: a string, or [undefined] when the body falls off
    its end without a [return]. *)
Inductive text :=
| Text (s : string)
| NoText.

(** [window.convertTimeToText = (timeUsage, abbrActive = false) => ...];
    an omitted second argument is [None].  [Math.floor] around the integer
    [timeUsage - min * 60] is the identity.  The two [NoText] ends are the
    implicit [undefined] of an [else if] chain without a final [else].
    The arithmetic is that of the code for [timeUsage] a safe integer; the
    comparisons are those of the code for every integer that is a binary64
    value.  [Binary64.convertTimeToText64] is the same function on
    binary64. *)
Definition convertTimeToText (timeUsage : Z) (abbrArg : option bool) : text :=
  let abbrActive := match abbrArg with Some b => b | None => false end in
  if timeUsage <? 60 then
    Text (string_of_Z timeUsage ++ " seconds")
  else if timeUsage >=? 60 then
    let min := timeUsage / 60 in
    let sec := timeUsage - min * 60 in
    if timeUsage <? 3600 then
      let timeText :=
        if abbrActive
        then string_of_Z min ++ " " ++ (if min =? 1 then "Min" else "Mins")
             ++ " " ++ string_of_Z sec ++ " Sec"
        else string_of_Z min ++ " " ++ (if min =? 1 then "Minute" else "Minutes")
             ++ " " ++ string_of_Z sec ++ " Seconds" in
      Text timeText
    else if timeUsage >=? 3600 then
      let hours := timeUsage / 3600 in
      let remainingMinutes := (timeUsage - hours * 3600) / 60 in
      Text (string_of_Z hours ++ " Hr" ++ (if negb (hours =? 1) then "s" else EmptyString)
            ++ " " ++ string_of_Z remainingMinutes ++ " "
            ++ (if remainingMinutes =? 1 then "Min" else "Mins"))
    else NoText
  else NoText.

End TimeText.

Export TimeText.

(** ** JavaScript values *)

Module Js.

Set Warnings "-register-all".

(** Values that travel between the page and the worker, and the values the
    helpers take and return. *)
Inductive JsVal :=
| Undefined
| Null
| Bool (b : bool)
| Num (n : Z)
| NaN
| Str (s : string)
| Arr (items : list JsVal)
| Obj (fields : list (string * JsVal)).

(** A property key: a canonical array index, or a name.  [Index i] stands for
    the key whose text is the decimal rendering of [i]. *)
Inductive Key :=
| Index (i : nat)
| Name (s : string).

(** What a [catch] clause can receive here. *)
Inductive Caught :=
| Rejection (e : JsVal)   (* the value a promise rejected with *)
| TypeError               (* a property read on undefined or null *)
| ErrorFunction.          (* [throw Error]: the constructor itself *)

(** Own-property lookup in an object literal: the first binding of the key. *)
Fixpoint lookup_field (k : string) (fields : list (string * JsVal)) : option JsVal :=
  match fields with
  | [] => None
  | (k', v) :: rest => if String.eqb k k' then Some v else lookup_field k rest
  end.

Definition key_text (k : Key) : string :=
  match k with
  | Index i => string_of_Z (Z.of_nat i)
  | Name s => s
  end.

(** ToBoolean. *)
Definition truthy (v : JsVal) : bool :=
  match v with
  | Undefined | Null | NaN => false
  | Bool b => b
  | Num n => negb (n =? 0)
  | Str s => negb (String.eqb s EmptyString)
  | Arr _ | Obj _ => true
  end.

Definition nullish (v : JsVal) : bool :=
  match v with
  | Undefined | Null => true
  | _ => false
  end.

(** ToString. An array joins its elements with commas, an absent element
    contributing nothing; a plain object prints as its tag. *)
Fixpoint to_string (v : JsVal) : string :=
  match v with
  | Undefined => "undefined"
  | Null => "null"
  | Bool true => "true"
  | Bool false => "false"
  | Num n => string_of_Z n
  | NaN => "NaN"
  | Str s => s
  | Arr items =>
      (fix join (l : list JsVal) : string :=
         match l with
         | [] => EmptyString
         | x :: rest =>
             (if nullish x then EmptyString else to_string x)
             ++ match rest with [] => EmptyString | _ => "," ++ join rest end
         end) items
  | Obj _ => "[object Object]"
  end.

(** ToNumber on the values that are not turned into strings by [+]. *)
Definition to_number (v : JsVal) : option Z :=
  match v with
  | Null => Some 0
  | Bool b => Some (if b then 1 else 0)
  | Num n => Some n
  | _ => None
  end.

Definition stringy (v : JsVal) : bool :=
  match v with
  | Str _ | Arr _ | Obj _ => true
  | _ => false
  end.

(** The binary [+]: concatenation as soon as one operand is a string or
    an object, numeric addition otherwise, [NaN] when a side has no number.
    The sum of two numbers is the sum of the code when it is a safe
    integer; [Binary64.sum_fields64] adds on binary64. *)
Definition js_add (a b : JsVal) : JsVal :=
  if stringy a || stringy b then Str (to_string a ++ to_string b)
  else match to_number a, to_number b with
       | Some x, Some y => Num (x + y)
       | _, _ => NaN
       end.

(** The value read by [v[k]] when [v] is neither undefined nor null.  Only
    own data properties are looked at: the keys read by this file
    ([error], [total-watch-time], [message], the index 0 and the keys a
    [for-in] has just produced) are not inherited ones. *)
Definition own_property (v : JsVal) (k : Key) : JsVal :=
  match v, k with
  | Arr items, Index i => nth i items Undefined
  | Str s, Index i =>
      match String.get i s with
      | Some c => Str (String c EmptyString)
      | None => Undefined
      end
  | Obj fields, _ =>
      match lookup_field (key_text k) fields with
      | Some x => x
      | None => Undefined
      end
  | _, _ => Undefined
  end.

(** The keys a [for (k in v)] visits, in order.  The fields of an object are
    taken to be listed in the engine's enumeration order. *)
Definition for_in_keys (v : JsVal) : list Key :=
  match v with
  | Arr items => map Index (seq 0 (List.length items))
  | Str s => map Index (seq 0 (String.length s))
  | Obj fields => map (fun f => Name (fst f)) fields
  | _ => []
  end.

(** [String.prototype.padStart]: the filler repeats [pad] from its start and is
    cut to the missing length. *)
Fixpoint filler (missing : nat) (pad rest : string) : string :=
  match missing with
  | O => EmptyString
  | S m =>
      match rest with
      | String c r => String c (filler m pad r)
      | EmptyString =>
          match pad with
          | String c r => String c (filler m pad r)
          | EmptyString => EmptyString
          end
      end
  end.

Definition padStart (s : string) (targetLength : nat) (pad : string) : string :=
  if (targetLength <=? String.length s)%nat then s
  else filler (targetLength - String.length s) pad pad ++ s.

End Js.

Export Js.

(** ** The world of a call: worker, clock, console *)

Module Runtime.

(** How [chrome.runtime.sendMessage] calls its callback: with the worker's
    response, or with [chrome.runtime.lastError] set. *)
Inductive Reply :=
| Response (response : JsVal)
| LastError (message : string).

(** The [chrome.runtime.lastError] object. *)
Definition lastError (message : string) : JsVal :=
  Obj [("message", Str message)].

(** The fields of [new Date()] that the file reads, in local time. *)
Record LocalDate := {
  getFullYear : Z;
  getMonth : Z;     (* 0 .. 11 *)
  getDate : Z       (* 1 .. 31 *)
}.

(** What the helpers read but do not change.  [JSON_stringify] is the text
    that [JSON.stringify] contributes to a template string; it only feeds a
    log line. *)
Record Env := {
  worker : JsVal -> Reply;
  now : LocalDate;
  JSON_stringify : JsVal -> string
}.

Inductive Level := LevelLog | LevelError.

Inductive Printed :=
| PVal (v : JsVal)
| PCaught (c : Caught).

Record LogEntry := {
  level : Level;
  printed : list Printed
}.

(** What the helpers change: the console, and the messages handed to
    [chrome.runtime.sendMessage], both oldest first. *)
Record World := {
  console : list LogEntry;
  outbox : list JsVal
}.

Inductive Outcome (A : Type) :=
| Ret (a : A)
| Throw (c : Caught).

Arguments Ret {A} a.
Arguments Throw {A} c.

Definition M (A : Type) : Type := Env -> World -> Outcome A * World.

Definition ret {A} (a : A) : M A := fun _ w => (Ret a, w).

Definition throw {A} (c : Caught) : M A := fun _ w => (Throw c, w).

Definition bind {A B} (m : M A) (k : A -> M B) : M B :=
  fun env w =>
    match m env w with
    | (Ret a, w') => k a env w'
    | (Throw c, w') => (Throw c, w')
    end.

(** [try { body } catch (error) { handler }] *)
Definition try_catch {A} (body : M A) (handler : Caught -> M A) : M A :=
  fun env w =>
    match body env w with
    | (Ret a, w') => (Ret a, w')
    | (Throw c, w') => handler c env w'
    end.

Definition ask : M Env := fun env w => (Ret env, w).

Definition emit (l : Level) (args : list Printed) : M unit :=
  fun _ w =>
    (Ret tt, {| console := console w ++ [{| level := l; printed := args |}];
                outbox := outbox w |}).

Definition console_log (args : list Printed) : M unit := emit LevelLog args.
Definition console_error (args : list Printed) : M unit := emit LevelError args.

(** [chrome.runtime.sendMessage(message, callback)]: the message leaves, and
    the callback later runs on the reply. *)
Definition chrome_runtime_sendMessage (message : JsVal) : M Reply :=
  fun env w =>
    (Ret (worker env message),
     {| console := console w; outbox := (outbox w ++ [message])%list |}).

(** [v[k]] as an expression: reading from undefined or null throws. *)
Definition get (v : JsVal) (k : Key) : M JsVal :=
  if nullish v then throw TypeError else ret (own_property v k).

(** The number of [console.error] calls recorded. *)
Definition errors (w : World) : nat :=
  List.length (filter (fun e => match level e with LevelError => true | LevelLog => false end)
                 (console w)).

End Runtime.

Export Runtime.

Declare Scope js_scope.
Delimit Scope js_scope with js.
Notation "x <- m ;; k" := (bind m (fun x => k))
  (at level 61, m at next level, right associativity) : js_scope.
Notation "m ;; k" := (bind m (fun _ => k))
  (at level 61, right associativity) : js_scope.
Notation "'try' body 'catch' x => handler" := (try_catch body (fun x => handler))
  (at level 62, x name, body at level 61) : js_scope.
Open Scope js_scope.

(** ** The helpers *)

Module Helpers.

(** [window.sendMessageToServiceWorker], together with the [await] of every
    caller: the promise resolves with the response, or rejects with
    [chrome.runtime.lastError], and awaiting the rejection throws it. *)
Definition sendMessageToServiceWorker (message : JsVal) : M JsVal :=
  reply <- chrome_runtime_sendMessage message ;;
  match reply with
  | LastError m => throw (Rejection (lastError m))
  | Response response => ret response
  end.

Definition filterRecordsGlobal (table property value : JsVal) : M JsVal :=
  try
    (filteredRecords <- sendMessageToServiceWorker
       (Obj [("operation", Str "filterRecords");
             ("table", table);
             ("property", property);
             ("value", value)]) ;;
     ret filteredRecords)
  catch error =>
    (console_error [PCaught error] ;;
     ret (Bool false)).

Definition resetTableGlobal (table : JsVal) : M JsVal :=
  try
    (result <- sendMessageToServiceWorker
       (Obj [("operation", Str "resetTable");
             ("table", table)]) ;;
     ret result)
  catch error =>
    (console_error [PCaught error] ;;
     ret (Bool false)).

Definition selectAllRecordsGlobal (table : JsVal) : M JsVal :=
  try
    (allRecordsInTable <- sendMessageToServiceWorker
       (Obj [("operation", Str "selectAllRecords");
             ("table", table)]) ;;
     ret allRecordsInTable)
  catch error =>
    (console_error [PCaught error] ;;
     ret (Bool false)).

Definition selectRecordByIdGlobal (table id : JsVal) : M JsVal :=
  try
    (recordsWithId <- sendMessageToServiceWorker
       (Obj [("operation", Str "selectRecordById");
             ("table", table);
             ("index", id)]) ;;
     ret recordsWithId)
  catch error =>
    (console_error [PCaught error] ;;
     ret (Bool false)).

Definition updateRecordByPropertyGlobal (table property value newRecords : JsVal)
  : M JsVal :=
  try
    (sendUpdatedRecords <- sendMessageToServiceWorker
       (Obj [("operation", Str "updateRecordByProperty");
             ("table", table);
             ("property", property);
             ("value", value);
             ("newRecords", newRecords)]) ;;
     flag <- get sendUpdatedRecords (Name "error") ;;
     if negb (truthy flag) then
       env <- ask ;;
       console_log
         [PVal (Str ("Record updated successfully for table youtube-limitations with property id, "
                     ++ to_string value ++ " with new records "
                     ++ JSON_stringify env newRecords ++ "."))] ;;
       ret (Bool true)
     else
       throw ErrorFunction)
  catch error =>
    (console_error
       [PVal (Str ("Error updating limitations DB for id: " ++ to_string value));
        PCaught error] ;;
     ret (Bool false)).

Definition deleteRecordByIdGlobal (table id : JsVal) : M JsVal :=
  try
    (console_log [PVal table] ;;
     console_log [PVal id] ;;
     result <- sendMessageToServiceWorker
       (Obj [("operation", Str "deleteRecordById");
             ("table", table);
             ("id", id)]) ;;
     console_log [PVal result] ;;
     ret result)
  catch error =>
    (console_error [PCaught error] ;;
     ret (Bool false)).

Definition insertRecordsGlobal (table newRecords : JsVal) : M JsVal :=
  try
    (result <- sendMessageToServiceWorker
       (Obj [("operation", Str "insertRecords");
             ("table", table);
             ("records", newRecords)]) ;;
     ret result)
  catch error =>
    (console_error [PCaught error] ;;
     ret (Bool false)).

(** [window.getCurrentDate] *)
Definition getCurrentDate : M string :=
  env <- ask ;;
  let date := now env in
  let year := getFullYear date in
  let month := padStart (string_of_Z (getMonth date + 1)) 2 "0" in
  let day := padStart (string_of_Z (getDate date)) 2 "0" in
  ret (string_of_Z year ++ "-" ++ month ++ "-" ++ day).

(** [window.getCurrentWatchTimes]: the [catch] clause has no [return], so a
    failure resolves to undefined. *)
Definition getCurrentWatchTimes : M JsVal :=
  try
    (today <- getCurrentDate ;;
     currentWatchTimeObj <- sendMessageToServiceWorker
       (Obj [("operation", Str "filterRecords");
             ("table", Str "watch-times");
             ("property", Str "date");
             ("value", Str today)]) ;;
     ret currentWatchTimeObj)
  catch error =>
    (console_error [PVal (Str "Error fetching current watch times:"); PCaught error] ;;
     ret Undefined).

(** The body of the [for (let index in totalWatchTimes)] loop, run over the
    keys that remain. *)
Fixpoint sum_loop (totalWatchTimes : JsVal) (keys : list Key) (totalTime : JsVal)
  : M JsVal :=
  match keys with
  | [] => ret totalTime
  | index :: rest =>
      element <- get totalWatchTimes index ;;
      time <- get element (Name "total-watch-time") ;;
      sum_loop totalWatchTimes rest (js_add totalTime time)
  end.

(** [window.getTotalWatchTime] *)
Definition getTotalWatchTime : M JsVal :=
  try
    (let totalTime := Num 0 in
     totalWatchTimes <- sendMessageToServiceWorker
       (Obj [("operation", Str "selectAllRecords");
             ("table", Str "watch-times")]) ;;
     totalTime <- sum_loop totalWatchTimes (for_in_keys totalWatchTimes) totalTime ;;
     ret totalTime)
  catch error =>
    (console_error [PCaught error] ;;
     ret Undefined).

(** [getCurrentWatchMode] *)
Definition getCurrentWatchMode : M JsVal :=
  try
    (data <- sendMessageToServiceWorker
       (Obj [("operation", Str "filterRecords");
             ("table", Str "watch-modes");
             ("property", Str "active");
             ("value", Bool true)]) ;;
     currentWatchMode <- get data (Index 0) ;;
     ret currentWatchMode)
  catch error =>
    (console_error [PCaught error] ;;
     ret (Bool false)).

(** [window.redirectUser = () => ...]: the function declares no parameter;
    [arguments] are whatever a caller passes all the same. *)
Definition redirectUser (arguments : list JsVal) : M unit :=
  reply <- chrome_runtime_sendMessage (Obj [("redirect", Str "/html/dashboard.html")]) ;;
  match reply with
  | LastError m =>
      message <- get (lastError m) (Name "message") ;;
      console_error [PVal message]
  | Response response =>
      console_log [PVal response]
  end.

End Helpers.

Export Helpers.

(** ** Reference definitions, written from the specification *)

Module Spec.

(** The unit word for a count: singular exactly when the count is 1. *)
Definition unit_word (count : Z) (singular pluralForm : string) : string :=
  if count =? 1 then singular else pluralForm.

(** The piecewise definition of the formatter in the specification (4.3). *)
Definition formatDuration (n : Z) (abbreviated : bool) : string :=
  if n <? 60 then
    string_of_Z n ++ " seconds"
  else if n <? 3600 then
    let m := n / 60 in
    let s := n - m * 60 in
    if abbreviated
    then string_of_Z m ++ " " ++ unit_word m "Min" "Mins" ++ " " ++ string_of_Z s ++ " Sec"
    else string_of_Z m ++ " " ++ unit_word m "Minute" "Minutes" ++ " "
         ++ string_of_Z s ++ " Seconds"
  else
    let h := n / 3600 in
    let m := (n - h * 3600) / 60 in
    string_of_Z h ++ " " ++ unit_word h "Hr" "Hrs" ++ " "
    ++ string_of_Z m ++ " " ++ unit_word m "Min" "Mins".

(** The fields of the documented Request shape (3). *)
Definition Request_fields : list string :=
  ["operation"; "table"; "index"; "property"; "value"; "records"; "newRecords"].

Definition field_names (v : JsVal) : list string :=
  match v with
  | Obj fields => map fst fields
  | _ => []
  end.

Definition documented (k : string) : bool :=
  existsb (String.eqb k) Request_fields.

Definition uses_documented_fields (message : JsVal) : bool :=
  forallb documented (field_names message).

(** A reply carries the embedded error flag when its [error] property is
    set, that is, truthy. *)
Definition carries_error_flag (payload : JsVal) : bool :=
  truthy (own_property payload (Name "error")).

(** The numeric [total-watch-time] field of a record, when it has one. *)
Definition watch_time (record : JsVal) : option Z :=
  match record with
  | Obj fields =>
      match lookup_field "total-watch-time" fields with
      | Some (Num z) => Some z
      | _ => None
      end
  | _ => None
  end.

(** The failure half of the uniform contract (4.2): the helper sends one
    message, and when the bridge rejects it the helper resolves to [false]
    and the console has one more error. *)
Definition false_on_rejection (helper : M JsVal) : Prop :=
  forall (env : Env) (w : World),
  exists message : JsVal,
    outbox (snd (helper env w)) = (outbox w ++ [message])%list
    /\ match worker env message with
       | LastError _ =>
           fst (helper env w) = Ret (Bool false)
           /\ errors (snd (helper env w)) = S (errors w)
       | Response _ => True
       end.

(** The success half: the helper resolves to the worker's payload. *)
Definition payload_unchanged (helper : M JsVal) : Prop :=
  forall (env : Env) (w : World),
  exists message : JsVal,
    outbox (snd (helper env w)) = (outbox w ++ [message])%list
    /\ match worker env message with
       | Response payload => fst (helper env w) = Ret payload
       | LastError _ => True
       end.

(** Two decimal digits, the leading one possibly zero. *)
Definition two_digits (k : Z) : string :=
  digit (k / 10) ++ digit (k mod 10).

Definition four_digits (k : Z) : string :=
  digit (k / 1000) ++ digit (k / 100 mod 10) ++ digit (k / 10 mod 10) ++ digit (k mod 10).

(** [yyyy-MM-dd] for a year of four digits, a month number and a day. *)
Definition yyyy_MM_dd (year month day : Z) : string :=
  four_digits year ++ "-" ++ two_digits month ++ "-" ++ two_digits day.

End Spec.

Export Spec.

(** ** Sample worlds *)

Module Samples.

Definition quiet : World := {| console := []; outbox := [] |}.

Definition some_day : LocalDate :=
  {| getFullYear := 2024; getMonth := 10; getDate := 4 |}.

(** An environment whose worker gives the same reply to every message. *)
Definition answering (reply : Reply) : Env :=
  {| worker := fun _ => reply;
     now := some_day;
     JSON_stringify := fun _ => "{}" |}.

Definition two_records : JsVal :=
  Arr [Obj [("total-watch-time", Num 10)]; Obj [("total-watch-time", Num 20)]].

End Samples.

Export Samples.

(** ** The notification banner *)

Module Notifications.

(** The jQuery calls that [displayNotifications] makes, each on the elements
    matched by a selector. *)
Inductive JqCall :=
| Html (selector content : string)
| Css (selector property value : string)
| FadeIn (selector : string) (duration : Z)
| Delay (selector : string) (duration : Z)
| FadeOut (selector : string) (duration : Z).

(** [window.displayNotifications = (msg, hexColor, iconName, delayTime,
    isPersistent = false) => ...]: the calls it makes, in order.  A chain
    [$(sel).a().b()] is the calls [a] then [b] on [sel]. *)
Definition displayNotifications (msg hexColor iconName : string) (delayTime : Z)
           (persistentArg : option bool) : list JqCall :=
  let isPersistent := match persistentArg with Some b => b | None => false end in
  [Html "#notif-msg .material-symbols-rounded" iconName;
   Css "#notif-msg .material-symbols-rounded" "color" hexColor;
   Html "#notif-msg p" msg;
   Css "#notif-msg" "--notif-before-background" hexColor]
  ++ (if negb isPersistent
      then [FadeIn "#notif-msg" 1000;
            Css "#notif-msg" "display" "flex";
            Delay "#notif-msg" delayTime;
            FadeOut "#notif-msg" 1000]
      else [FadeIn "#notif-msg" 1000;
            Css "#notif-msg" "display" "flex"])%list.

(** An entry of the effects queue of an element. *)
Inductive Effect :=
| FxFadeIn (duration : Z)
| FxDelay (duration : Z)
| FxFadeOut (duration : Z).

(** The notification region: one icon element and one paragraph inside
    [#notif-msg].  [.html] and [.css] write at once; [.fadeIn], [.delay] and
    [.fadeOut] join the effects queue of the element and run in order. *)
Record Banner := {
  icon : string;
  icon_color : string;
  paragraph : string;
  accent : string;               (* --notif-before-background *)
  display : option string;       (* the inline display, when set *)
  queue : list Effect
}.

Definition apply_call (b : Banner) (c : JqCall) : Banner :=
  match c with
  | Html sel content =>
      if String.eqb sel "#notif-msg .material-symbols-rounded" then
        {| icon := content; icon_color := icon_color b; paragraph := paragraph b;
           accent := accent b; display := display b; queue := queue b |}
      else if String.eqb sel "#notif-msg p" then
        {| icon := icon b; icon_color := icon_color b; paragraph := content;
           accent := accent b; display := display b; queue := queue b |}
      else b
  | Css sel property value =>
      if String.eqb sel "#notif-msg .material-symbols-rounded"
         && String.eqb property "color" then
        {| icon := icon b; icon_color := value; paragraph := paragraph b;
           accent := accent b; display := display b; queue := queue b |}
      else if String.eqb sel "#notif-msg"
              && String.eqb property "--notif-before-background" then
        {| icon := icon b; icon_color := icon_color b; paragraph := paragraph b;
           accent := value; display := display b; queue := queue b |}
      else if String.eqb sel "#notif-msg" && String.eqb property "display" then
        {| icon := icon b; icon_color := icon_color b; paragraph := paragraph b;
           accent := accent b; display := Some value; queue := queue b |}
      else b
  | FadeIn sel ms =>
      if String.eqb sel "#notif-msg" then
        {| icon := icon b; icon_color := icon_color b; paragraph := paragraph b;
           accent := accent b; display := display b;
           queue := queue b ++ [FxFadeIn ms] |}
      else b
  | Delay sel ms =>
      if String.eqb sel "#notif-msg" then
        {| icon := icon b; icon_color := icon_color b; paragraph := paragraph b;
           accent := accent b; display := display b;
           queue := queue b ++ [FxDelay ms] |}
      else b
  | FadeOut sel ms =>
      if String.eqb sel "#notif-msg" then
        {| icon := icon b; icon_color := icon_color b; paragraph := paragraph b;
           accent := accent b; display := display b;
           queue := queue b ++ [FxFadeOut ms] |}
      else b
  end.

(** The banner after one call of [displayNotifications]. *)
Definition notify (b : Banner) (msg hexColor iconName : string) (delayTime : Z)
           (persistentArg : option bool) : Banner :=
  fold_left apply_call (displayNotifications msg hexColor iconName delayTime persistentArg) b.

(** The arguments of one call. *)
Record Notice := {
  notice_msg : string;
  notice_color : string;
  notice_icon : string;
  notice_delay : Z;
  notice_persistent : option bool
}.

Definition persistent (n : Notice) : bool :=
  match notice_persistent n with Some b => b | None => false end.

Definition notify_all (b : Banner) (calls : list Notice) : Banner :=
  fold_left
    (fun b n => notify b (notice_msg n) (notice_color n) (notice_icon n)
                  (notice_delay n) (notice_persistent n))
    calls b.

(** Whether the region is shown once the effects have run, starting from
    [shown]: a fade-in ends shown, a fade-out ends hidden. *)
Definition settle (shown : bool) (effects : list Effect) : bool :=
  fold_left
    (fun s e => match e with
                | FxFadeIn _ => true
                | FxFadeOut _ => false
                | FxDelay _ => s
                end)
    effects shown.

(** The effects that one call queues. *)
Definition effects_of (n : Notice) : list Effect :=
  if persistent n then [FxFadeIn 1000]
  else [FxFadeIn 1000; FxDelay (notice_delay n); FxFadeOut 1000].

End Notifications.

Export Notifications.

(** ** Readers used to state and check the properties *)

Module Readers.

Definition digit_value (c : ascii) : option Z :=
  let n := Z.of_nat (nat_of_ascii c) in
  if (48 <=? n) && (n <=? 57) then Some (n - 48) else None.

(** The number written by the leading digits of a string, and what follows. *)
Fixpoint read_number (s : string) (acc : Z) : Z * string :=
  match s with
  | EmptyString => (acc, s)
  | String c rest =>
      match digit_value c with
      | Some d => read_number rest (acc * 10 + d)
      | None => (acc, s)
      end
  end.

(** What follows the first space of a string. *)
Fixpoint after_space (s : string) : string :=
  match s with
  | EmptyString => EmptyString
  | String c rest => if Ascii.eqb c " "%char then rest else after_space rest
  end.

(** The number of seconds that a text below an hour stands for: the number
    alone when one unit word follows it, minutes and seconds otherwise. *)
Definition seconds_of_text (s : string) : Z :=
  let (a, r) := read_number s 0 in
  match after_space (after_space r) with
  | EmptyString => a
  | tail => a * 60 + fst (read_number tail 0)
  end.

Definition text_string (t : text) : string :=
  match t with
  | Text s => s
  | NoText => EmptyString
  end.

(** The helper sends one message; it resolves to [false] exactly when the
    worker answered [false] or the bridge rejected, and only the rejection
    adds an error to the console. *)
Definition false_is_ambiguous (helper : M JsVal) : Prop :=
  forall (env : Env) (w : World),
  exists message : JsVal,
    outbox (snd (helper env w)) = (outbox w ++ [message])%list
    /\ (fst (helper env w) = Ret (Bool false) <->
        (worker env message = Response (Bool false)
         \/ exists m, worker env message = LastError m))
    /\ (errors (snd (helper env w)) = S (errors w) <->
        exists m, worker env message = LastError m)
    /\ (errors (snd (helper env w)) = errors w <->
        exists v, worker env message = Response v).

(** The computation always ends with a value: the promise never rejects. *)
Definition never_rejects {A : Type} (m : M A) : Prop :=
  forall (env : Env) (w : World), exists a : A, fst (m env w) = Ret a.

(** The helper leaves the console as it was whenever the bridge answers. *)
Definition quiet_on_success (helper : M JsVal) : Prop :=
  forall (env : Env) (w : World),
  exists message : JsVal,
    outbox (snd (helper env w)) = (outbox w ++ [message])%list
    /\ match worker env message with
       | Response _ => console (snd (helper env w)) = console w
       | LastError _ => True
       end.

(** The [total-watch-time] property as the loop reads it from an element
    that is neither undefined nor null. *)
Definition time_field (record : JsVal) : JsVal :=
  own_property record (Name "total-watch-time").

Definition has_number (record : JsVal) : bool :=
  match time_field record with Num _ => true | _ => false end.

Definition lacks_time (record : JsVal) : bool :=
  match time_field record with Undefined => true | _ => false end.


(** One turn of the summing loop on an element that can be read. *)
Definition add_time (totalTime record : JsVal) : JsVal :=
  js_add totalTime (time_field record).

(** The request of [getTotalWatchTime]. *)
Definition selectAll_watch_times : JsVal :=
  Obj [("operation", Str "selectAllRecords"); ("table", Str "watch-times")].

(** A clock reading with a year of four digits, a month index and a day. *)
Definition plain_date (d : LocalDate) : Prop :=
  1000 <= getFullYear d <= 9999
  /\ 0 <= getMonth d <= 11
  /\ 1 <= getDate d <= 31.

End Readers.

Export Readers.

(** ** The arithmetic of the code on binary64 *)

Module Binary64.

(** [Number.MAX_SAFE_INTEGER] *)
Definition MAX_SAFE_INTEGER : Z := 9007199254740991.

Definition safe_integer (z : Z) : bool :=
  (- MAX_SAFE_INTEGER <=? z) && (z <=? MAX_SAFE_INTEGER).

(** Every field and every running total of the summing loop, started at
    [acc], is a safe integer: no addition of the loop rounds. *)
Fixpoint sums_exactly (times : list Z) (acc : Z) : bool :=
  match times with
  | [] => true
  | z :: rest => safe_integer z && safe_integer (acc + z) && sums_exactly rest (acc + z)
  end.

(** Binary64 is the format with a mantissa of 53 bits and infinities at
    exponent 1024; its values are those of [spec_float], its operations the
    correctly rounded ones (to nearest, ties to even). *)
Definition prec64 : Z := 53.
Definition emax64 : Z := 1024.

Definition double : Type := spec_float.

Definition add64 : double -> double -> double := SFadd prec64 emax64.
Definition sub64 : double -> double -> double := SFsub prec64 emax64.
Definition mul64 : double -> double -> double := SFmul prec64 emax64.
Definition div64 : double -> double -> double := SFdiv prec64 emax64.

(** The binary64 value nearest to an integer (the integer itself when it is
    one). *)
Definition double_of_Z (z : Z) : double :=
  binary_normalize prec64 emax64 z 0 false.

(** The integer that a binary64 value is, when it is one. *)
Definition integer_value (x : double) : option Z :=
  match x with
  | S754_zero _ => Some 0
  | S754_finite s m e =>
      let v := if s then Z.neg m else Z.pos m in
      if 0 <=? e then Some (v * 2 ^ e)
      else if v mod 2 ^ (- e) =? 0 then Some (v / 2 ^ (- e))
      else None
  | _ => None
  end.

(** [Math.floor]: a value without a fractional part, NaN and the infinities
    are their own floor. *)
Definition floor64 (x : double) : double :=
  match x with
  | S754_finite s m e =>
      if 0 <=? e then x
      else double_of_Z ((if s then Z.neg m else Z.pos m) / 2 ^ (- e))
  | _ => x
  end.

(** [`${x}`] where the digits are plain: NaN, the infinities, and the safe
    integers in full decimal.  Other values have no rendering here. *)
Definition render64 (x : double) : option string :=
  match x with
  | S754_nan => Some "NaN"
  | S754_infinity false => Some "Infinity"
  | S754_infinity true => Some "-Infinity"
  | _ =>
      match integer_value x with
      | Some v => if safe_integer v then Some (string_of_Z v) else None
      | None => None
      end
  end.

(** [window.convertTimeToText] on binary64, operation by operation as the
    source has them; [None] when a number to print has no rendering above. *)
Definition convertTimeToText64 (timeUsage : double) (abbrArg : option bool)
  : option text :=
  let abbrActive := match abbrArg with Some b => b | None => false end in
  if SFltb timeUsage (double_of_Z 60) then
    match render64 timeUsage with
    | Some t => Some (Text (t ++ " seconds"))
    | None => None
    end
  else if SFleb (double_of_Z 60) timeUsage then
    let min := floor64 (div64 timeUsage (double_of_Z 60)) in
    let sec := floor64 (sub64 timeUsage (mul64 min (double_of_Z 60))) in
    if SFltb timeUsage (double_of_Z 3600) then
      match render64 min, render64 sec with
      | Some m, Some s =>
          Some (Text
                  (if abbrActive
                   then m ++ " " ++ (if SFeqb min (double_of_Z 1) then "Min" else "Mins")
                        ++ " " ++ s ++ " Sec"
                   else m ++ " "
                        ++ (if SFeqb min (double_of_Z 1) then "Minute" else "Minutes")
                        ++ " " ++ s ++ " Seconds"))
      | _, _ => None
      end
    else if SFleb (double_of_Z 3600) timeUsage then
      let hours := floor64 (div64 timeUsage (double_of_Z 3600)) in
      let remainingMinutes :=
        floor64 (div64 (sub64 timeUsage (mul64 hours (double_of_Z 3600)))
                       (double_of_Z 60)) in
      match render64 hours, render64 remainingMinutes with
      | Some h, Some m =>
          Some (Text
                  (h ++ " Hr"
                   ++ (if negb (SFeqb hours (double_of_Z 1)) then "s" else EmptyString)
                   ++ " " ++ m ++ " "
                   ++ (if SFeqb remainingMinutes (double_of_Z 1) then "Min" else "Mins")))
      | _, _ => None
      end
    else Some NoText
  else Some NoText.

(** The total that the loop of [getTotalWatchTime] builds on binary64 when
    every record holds a number: [totalTime = 0], then [totalTime += field]
    for each field in turn. *)
Definition sum_fields64 (fields : list double) : double :=
  fold_left add64 fields (double_of_Z 0).

(** Equality test of two optional texts. *)
Definition same_text (a : option text) (b : text) : bool :=
  match a, b with
  | Some (Text x), Text y => String.eqb x y
  | Some NoText, NoText => true
  | _, _ => false
  end.

End Binary64.

Export Binary64.

(** ** Properties of the time formatter *)

Section StringFacts.

Lemma has_minus_app (a b : string) :
  has_minus (a ++ b) = has_minus a || has_minus b.
Proof.
  induction a as [|c a IH]; simpl; [reflexivity|].
  rewrite IH. apply orb_assoc.
Qed.

Lemma append_assoc (a b c : string) : (a ++ b) ++ c = a ++ (b ++ c).
Proof.
  induction a as [|x a IH]; simpl; [reflexivity|].
  now rewrite IH.
Qed.

Lemma digits_have_no_minus (d : Decimal.uint) :
  has_minus (NilEmpty.string_of_uint d) = false.
Proof.
  induction d; simpl; auto.
Qed.

Lemma string_of_Z_no_minus (n : Z) :
  0 <= n -> has_minus (string_of_Z n) = false.
Proof.
  intros Hn. unfold string_of_Z.
  destruct n as [|p|p]; [reflexivity| |lia].
  simpl. destruct (Pos.to_uint p) eqn:E; try reflexivity;
    rewrite <- E; simpl; rewrite ?E; simpl; apply digits_have_no_minus.
Qed.

End StringFacts.

Section Formatter.

Lemma minutes_remainder (n : Z) :
  0 <= n -> 0 <= n / 60 /\ 0 <= n - n / 60 * 60 < 60.
Proof.
  intros Hn. pose proof (Z.div_mod n 60 ltac:(lia)) as E.
  pose proof (Z.mod_pos_bound n 60 ltac:(lia)) as B.
  split; [apply Z.div_pos; lia | lia].
Qed.

Lemma hours_remainder (n : Z) :
  0 <= n -> 0 <= n / 3600 /\ 0 <= (n - n / 3600 * 3600) / 60 < 60.
Proof.
  intros Hn. pose proof (Z.div_mod n 3600 ltac:(lia)) as E.
  pose proof (Z.mod_pos_bound n 3600 ltac:(lia)) as B.
  split; [apply Z.div_pos; lia|].
  split; [apply Z.div_pos; lia | apply Z.div_lt_upper_bound; lia].
Qed.

(** On the durations up to 7999 seconds, and on the last hundred safe
    integers, the binary64 run of the formatter gives the text of the
    integer model. *)
Lemma binary64_agrees_on_sample (n : Z) (abbrArg : option bool) :
  0 <= n < 8000 \/ MAX_SAFE_INTEGER - 100 < n <= MAX_SAFE_INTEGER ->
  convertTimeToText64 (double_of_Z n) abbrArg = Some (convertTimeToText n abbrArg).
Proof.
  assert (Hsame : forall a b, same_text a b = true -> a = Some b).
  { intros [[x|]|] [y|]; simpl; try discriminate; [|reflexivity].
    intros E. apply String.eqb_eq in E. now subst. }
  assert (Low : forallb
                  (fun i =>
                     forallb
                       (fun a => same_text (convertTimeToText64 (double_of_Z (Z.of_nat i)) a)
                                           (convertTimeToText (Z.of_nat i) a))
                       [None; Some true; Some false])
                  (seq 0 (Z.to_nat 8000)) = true) by (vm_compute; reflexivity).
  assert (High : forallb
                   (fun i =>
                      forallb
                        (fun a => same_text
                                    (convertTimeToText64
                                       (double_of_Z (MAX_SAFE_INTEGER - Z.of_nat i)) a)
                                    (convertTimeToText (MAX_SAFE_INTEGER - Z.of_nat i) a))
                        [None; Some true; Some false])
                   (seq 0 (Z.to_nat 100)) = true) by (vm_compute; reflexivity).
  assert (Harg : In abbrArg [None; Some true; Some false])
    by (destruct abbrArg as [[|]|]; simpl; auto).
  intros [Hn | Hn].
  - rewrite forallb_forall in Low.
    specialize (Low (Z.to_nat n)). rewrite Z2Nat.id in Low by lia.
    assert (Hin : In (Z.to_nat n) (seq 0 (Z.to_nat 8000))) by (apply in_seq; lia).
    specialize (Low Hin). rewrite forallb_forall in Low.
    apply Hsame, Low, Harg.
  - rewrite forallb_forall in High.
    specialize (High (Z.to_nat (MAX_SAFE_INTEGER - n))).
    rewrite Z2Nat.id in High by lia.
    replace (MAX_SAFE_INTEGER - (MAX_SAFE_INTEGER - n)) with n in High by lia.
    assert (Hin : In (Z.to_nat (MAX_SAFE_INTEGER - n)) (seq 0 (Z.to_nat 100)))
      by (apply in_seq; lia).
    specialize (High Hin). rewrite forallb_forall in High.
    apply Hsame, High, Harg.
Qed.

(** C1 as amended. For an integer from 0 to [MAX_SAFE_INTEGER] the formatter
    returns the piecewise text of the specification: "{n} seconds" below a minute; minutes and the seconds
    left below an hour, long or abbreviated, the minute word singular exactly
    at 1; hours and whole minutes from an hour on, each word singular exactly
    at 1, the seconds left dropped.  The listed sample values follow. *)
Theorem convertTimeToText_piecewise :
  (forall (n : Z) (abbrArg : option bool),
      0 <= n <= MAX_SAFE_INTEGER ->
      convertTimeToText n abbrArg
      = Text (formatDuration n (match abbrArg with Some b => b | None => false end)))
  /\ convertTimeToText 0 None = Text "0 seconds"
  /\ convertTimeToText 60 None = Text "1 Minute 0 Seconds"
  /\ convertTimeToText 60 (Some true) = Text "1 Min 0 Sec"
  /\ convertTimeToText 125 None = Text "2 Minutes 5 Seconds"
  /\ convertTimeToText 3600 None = Text "1 Hr 0 Mins"
  /\ convertTimeToText 5400 None = Text "1 Hr 30 Mins"
  /\ convertTimeToText 7260 None = Text "2 Hrs 1 Min".
Proof.
  split; [|repeat split; reflexivity].
  intros n abbrArg Hn.
  unfold convertTimeToText, formatDuration, unit_word.
  destruct (n <? 60) eqn:E60; [reflexivity|].
  apply Z.ltb_ge in E60.
  replace (n >=? 60) with true by (symmetry; rewrite Z.geb_leb; apply Z.leb_le; lia).
  destruct (n <? 3600) eqn:E3600.
  - destruct abbrArg as [[|]|]; reflexivity.
  - apply Z.ltb_ge in E3600.
    replace (n >=? 3600) with true by (symmetry; rewrite Z.geb_leb; apply Z.leb_le; lia).
    destruct (n / 3600 =? 1); reflexivity.
Qed.

(** The piecewise result at 3725 seconds, with the second argument left out. *)
Lemma convertTimeToText_piecewise_witness :
  0 <= 3725 <= MAX_SAFE_INTEGER /\ convertTimeToText 3725 None = Text "1 Hr 2 Mins".
Proof.
  assert (H : 0 <= 3725 <= MAX_SAFE_INTEGER) by (unfold MAX_SAFE_INTEGER; lia).
  split; [exact H|].
  exact (proj1 convertTimeToText_piecewise 3725 None H).
Defined.

(** C1 as stated fails beyond the safe integers: at 2^63 seconds the code,
    run on binary64, prints 34 minutes where floor((n - h*3600)/60) is 30. *)
Lemma convertTimeToText_piecewise_counterexample :
  integer_value (double_of_Z 9223372036854775808) = Some 9223372036854775808
  /\ convertTimeToText64 (double_of_Z 9223372036854775808) None
     = Some (Text "2562047788015215 Hrs 34 Mins")
  /\ formatDuration 9223372036854775808 false = "2562047788015215 Hrs 30 Mins"
  /\ ~ (forall (n : Z) (abbrArg : option bool),
          0 <= n ->
          convertTimeToText64 (double_of_Z n) abbrArg
          = Some (Text (formatDuration n
                          (match abbrArg with Some b => b | None => false end)))).
Proof.
  split; [vm_compute; reflexivity|].
  split; [vm_compute; reflexivity|]. split; [vm_compute; reflexivity|].
  intros H. specialize (H 9223372036854775808 None ltac:(lia)).
  vm_compute in H. discriminate H.
Qed.




(** C8 as amended. For an integer from 0 to [MAX_SAFE_INTEGER] the formatter
    returns a text without a minus sign.  Below an hour (from a minute on) it prints a minute count
    that is not negative and a seconds remainder n - floor(n/60)*60 in 0..59;
    from an hour on it prints an hour count that is not negative and a
    minutes remainder floor((n - floor(n/3600)*3600)/60) in 0..59. *)
Theorem convertTimeToText_magnitudes (n : Z) (abbrArg : option bool) :
  0 <= n <= MAX_SAFE_INTEGER ->
  exists s : string,
    convertTimeToText n abbrArg = Text s
    /\ has_minus s = false
    /\ (60 <= n < 3600 ->
        exists (unitM unitS : string),
          s = string_of_Z (n / 60) ++ " " ++ unitM ++ " "
              ++ string_of_Z (n - n / 60 * 60) ++ unitS
          /\ 0 <= n / 60
          /\ 0 <= n - n / 60 * 60 < 60)
    /\ (3600 <= n ->
        exists (unitH unitM : string),
          s = string_of_Z (n / 3600) ++ unitH ++ " "
              ++ string_of_Z ((n - n / 3600 * 3600) / 60) ++ " " ++ unitM
          /\ 0 <= n / 3600
          /\ 0 <= (n - n / 3600 * 3600) / 60 < 60).
Proof.
  intros [Hn _].
  destruct (minutes_remainder n Hn) as [Hm Hs].
  destruct (hours_remainder n Hn) as [Hh Hr].
  unfold convertTimeToText.
  destruct (n <? 60) eqn:E60.
  - apply Z.ltb_lt in E60. eexists; split; [reflexivity|].
    split; [|split; intros; lia].
    rewrite has_minus_app, string_of_Z_no_minus by lia. reflexivity.
  - apply Z.ltb_ge in E60.
    replace (n >=? 60) with true by (symmetry; rewrite Z.geb_leb; apply Z.leb_le; lia).
    destruct (n <? 3600) eqn:E3600.
    + apply Z.ltb_lt in E3600. eexists; split; [reflexivity|].
      split; [|split; [intros _|intros; lia]].
      * destruct (match abbrArg with Some b => b | None => false end);
          destruct (n / 60 =? 1);
          rewrite !has_minus_app, !string_of_Z_no_minus by lia; reflexivity.
      * destruct (match abbrArg with Some b => b | None => false end);
          do 2 eexists; (split; [reflexivity|split; lia]).
    + apply Z.ltb_ge in E3600.
      replace (n >=? 3600) with true by (symmetry; rewrite Z.geb_leb; apply Z.leb_le; lia).
      eexists; split; [reflexivity|].
      split; [|split; [intros; lia|intros _]].
      * destruct (n / 3600 =? 1); destruct ((n - n / 3600 * 3600) / 60 =? 1);
          rewrite !has_minus_app, !string_of_Z_no_minus by lia; reflexivity.
      * exists (" Hr" ++ (if negb (n / 3600 =? 1) then "s" else EmptyString)).
        eexists. split; [|split; lia].
        rewrite !append_assoc. reflexivity.
Qed.

Lemma convertTimeToText_magnitudes_witness :
  0 <= 7260 <= MAX_SAFE_INTEGER /\
  exists s : string, convertTimeToText 7260 None = Text s /\ has_minus s = false.
Proof.
  assert (Hn : 0 <= 7260 <= MAX_SAFE_INTEGER) by (unfold MAX_SAFE_INTEGER; lia).
  split; [exact Hn|].
  destruct (convertTimeToText_magnitudes 7260 None Hn) as [s [E [H _]]].
  exists s. split; assumption.
Defined.

(** C8 as stated fails beyond the safe integers: at 285753667887284384
    seconds, a binary64 value, the rounded product hours * 3600 exceeds the
    duration and the code prints -1 minutes. *)
Lemma convertTimeToText_magnitudes_counterexample :
  integer_value (double_of_Z 285753667887284384) = Some 285753667887284384
  /\ convertTimeToText64 (double_of_Z 285753667887284384) None
     = Some (Text "79376018857579 Hrs -1 Mins")
  /\ has_minus "79376018857579 Hrs -1 Mins" = true
  /\ ~ (forall (n : Z) (abbrArg : option bool),
          0 <= n ->
          exists s : string,
            convertTimeToText64 (double_of_Z n) abbrArg = Some (Text s)
            /\ has_minus s = false).
Proof.
  split; [vm_compute; reflexivity|]. split; [vm_compute; reflexivity|].
  split; [vm_compute; reflexivity|].
  intros H. destruct (H 285753667887284384 None ltac:(lia)) as [s [E Hs]].
  vm_compute in E. injection E as <-. vm_compute in Hs. discriminate Hs.
Qed.

End Formatter.

(** ** Properties of the record access helpers *)

Section Console.

Lemma errors_after_error (entries : list LogEntry) (sent : list JsVal)
      (args : list Printed) :
  errors {| console := entries ++ [{| level := LevelError; printed := args |}];
            outbox := sent |}
  = S (errors {| console := entries; outbox := sent |}).
Proof.
  unfold errors. simpl.
  rewrite filter_app, length_app. simpl. lia.
Qed.

Lemma errors_after_log (entries : list LogEntry) (sent : list JsVal)
      (args : list Printed) :
  errors {| console := entries ++ [{| level := LevelLog; printed := args |}];
            outbox := sent |}
  = errors {| console := entries; outbox := sent |}.
Proof.
  unfold errors. simpl.
  rewrite filter_app, length_app. simpl. lia.
Qed.

End Console.

(** Unfold one helper down to the case analysis on the worker's reply. *)
Ltac run_helper :=
  cbv [filterRecordsGlobal resetTableGlobal selectAllRecordsGlobal
       selectRecordByIdGlobal updateRecordByPropertyGlobal
       deleteRecordByIdGlobal insertRecordsGlobal
       getCurrentWatchTimes getCurrentDate getTotalWatchTime getCurrentWatchMode
       redirectUser sendMessageToServiceWorker chrome_runtime_sendMessage
       try_catch bind ret throw ask console_log console_error emit get];
  cbn [worker now JSON_stringify console outbox fst snd].

Ltac count_errors :=
  repeat (rewrite errors_after_error || rewrite errors_after_log);
  try reflexivity.

Ltac split_reply :=
  let E := fresh "Ereply" in
  match goal with
  | |- context [worker ?e (Obj ?fields)] => destruct (worker e (Obj fields)) eqn:E
  end.

Ltac split_flag :=
  repeat match goal with
    | |- context [if nullish ?v then _ else _] => destruct (nullish v) eqn:?
    | |- context [truthy ?v] => destruct (truthy v) eqn:?
    end;
  cbn [negb fst snd outbox console].

Ltac uniform :=
  unfold false_on_rejection, payload_unchanged; intros;
  eexists; run_helper; split_reply; split_flag;
  (split; [reflexivity|]);
  match goal with
  | E : worker _ _ = _ |- _ => rewrite E
  end;
  try exact I; try reflexivity;
  (split; [reflexivity | count_errors]).

Section RecordAccess.

(** C2. Each of the seven record access helpers sends one message and, when
    the bridge rejects it, resolves to false with exactly one more
    [console.error]; each of them except the update helper resolves to the
    worker's payload unchanged when the bridge answers. *)
Theorem record_access_helpers_contract :
  (forall table property value,
      false_on_rejection (filterRecordsGlobal table property value)
      /\ payload_unchanged (filterRecordsGlobal table property value))
  /\ (forall table,
      false_on_rejection (resetTableGlobal table)
      /\ payload_unchanged (resetTableGlobal table))
  /\ (forall table,
      false_on_rejection (selectAllRecordsGlobal table)
      /\ payload_unchanged (selectAllRecordsGlobal table))
  /\ (forall table id,
      false_on_rejection (selectRecordByIdGlobal table id)
      /\ payload_unchanged (selectRecordByIdGlobal table id))
  /\ (forall table id,
      false_on_rejection (deleteRecordByIdGlobal table id)
      /\ payload_unchanged (deleteRecordByIdGlobal table id))
  /\ (forall table newRecords,
      false_on_rejection (insertRecordsGlobal table newRecords)
      /\ payload_unchanged (insertRecordsGlobal table newRecords))
  /\ (forall table property value newRecords,
      false_on_rejection (updateRecordByPropertyGlobal table property value newRecords)).
Proof.
  repeat split; uniform.
Qed.

(** C3 as amended. The update helper sends its request and resolves to true
    exactly when the bridge answers with a value that is neither undefined
    nor null and whose [error] property is not set; a reply with the flag set
    makes it throw [Error], which its own handler logs before resolving to
    false.  The result is always one of the two booleans, false coming with
    exactly one more [console.error], so the payload itself is never
    returned. *)
Theorem updateRecordByPropertyGlobal_outcome
        (table property value newRecords : JsVal) (env : Env) (w : World) :
  let run := updateRecordByPropertyGlobal table property value newRecords env w in
  let message :=
    Obj [("operation", Str "updateRecordByProperty");
         ("table", table);
         ("property", property);
         ("value", value);
         ("newRecords", newRecords)] in
  outbox (snd run) = (outbox w ++ [message])%list
  /\ (fst run = Ret (Bool true) <->
      exists payload : JsVal,
        worker env message = Response payload
        /\ nullish payload = false
        /\ carries_error_flag payload = false)
  /\ (forall payload : JsVal,
        worker env message = Response payload ->
        nullish payload = false ->
        carries_error_flag payload = true ->
        fst run = Ret (Bool false)
        /\ console (snd run)
           = (console w ++
              [{| level := LevelError;
                  printed :=
                    [PVal (Str ("Error updating limitations DB for id: "
                                ++ to_string value));
                     PCaught ErrorFunction] |}])%list)
  /\ ((fst run = Ret (Bool true) /\ errors (snd run) = errors w)
      \/ (fst run = Ret (Bool false) /\ errors (snd run) = S (errors w))).
Proof.
  unfold carries_error_flag. run_helper. split_reply.
  - destruct (nullish response) eqn:Enull;
      [|destruct (truthy (own_property response (Name "error"))) eqn:Eflag];
      cbn [negb fst snd outbox console];
      (split; [reflexivity|]); (split; [|split]).
    + split; [discriminate|].
      intros [payload [E [Hn _]]]. injection E as <-. congruence.
    + intros payload E Hn _. injection E as <-. congruence.
    + right. split; [reflexivity|count_errors].
    + split; [discriminate|].
      intros [payload [E [_ Hf]]]. injection E as <-. congruence.
    + intros _ _ _ _. split; reflexivity.
    + right. split; [reflexivity|count_errors].
    + split; [intros _|reflexivity].
      exists response. repeat split; assumption.
    + intros payload E _ Hf. injection E as <-. congruence.
    + left. split; [reflexivity|count_errors].
  - cbn [fst snd outbox console].
    split; [reflexivity|]. split; [|split].
    + split; [discriminate|]. intros [payload [E _]]. discriminate E.
    + intros payload E. discriminate E.
    + right. split; [reflexivity|count_errors].
Qed.

(** A reply that carries the flag, run through the theorem. *)
Lemma updateRecordByPropertyGlobal_outcome_witness :
  fst (updateRecordByPropertyGlobal (Str "youtube-limitations") (Str "id") (Num 1)
         (Obj [("active", Bool true)])
         (answering (Response (Obj [("error", Bool true)]))) quiet)
  = Ret (Bool false).
Proof.
  destruct (updateRecordByPropertyGlobal_outcome
              (Str "youtube-limitations") (Str "id") (Num 1)
              (Obj [("active", Bool true)])
              (answering (Response (Obj [("error", Bool true)]))) quiet)
    as [_ [_ [H _]]].
  destruct (H (Obj [("error", Bool true)]) eq_refl eq_refl eq_refl) as [E _].
  exact E.
Defined.

(** C3 as stated fails: an undefined reply resolves and carries no flag, yet
    reading its [error] property throws and the helper resolves to false. *)
Lemma updateRecordByPropertyGlobal_counterexample :
  ~ (forall (table property value newRecords : JsVal) (reply : Reply) (w : World),
        fst (updateRecordByPropertyGlobal table property value newRecords
               (answering reply) w) = Ret (Bool true)
        <-> exists payload : JsVal,
              reply = Response payload /\ carries_error_flag payload = false).
Proof.
  intros H.
  destruct (H (Str "youtube-limitations") (Str "id") (Num 1)
              (Obj [("active", Bool true)]) (Response Undefined) quiet) as [_ Hback].
  assert (E : fst (updateRecordByPropertyGlobal (Str "youtube-limitations") (Str "id")
                     (Num 1) (Obj [("active", Bool true)])
                     (answering (Response Undefined)) quiet) = Ret (Bool true)).
  { apply Hback. exists Undefined. split; reflexivity. }
  vm_compute in E. discriminate E.
Qed.

(** Every helper but the delete one builds its request from documented
    fields; selecting by id puts the identifier under [index]. *)
Lemma other_requests_documented (env : Env) (w : World) (a b c d : JsVal) :
  forallb uses_documented_fields
    (outbox (snd (filterRecordsGlobal a b c env quiet))
     ++ outbox (snd (resetTableGlobal a env quiet))
     ++ outbox (snd (selectAllRecordsGlobal a env quiet))
     ++ outbox (snd (selectRecordByIdGlobal a b env quiet))
     ++ outbox (snd (updateRecordByPropertyGlobal a b c d env quiet))
     ++ outbox (snd (insertRecordsGlobal a b env quiet)))%list = true
  /\ outbox (snd (selectRecordByIdGlobal a b env w))
     = (outbox w ++ [Obj [("operation", Str "selectRecordById");
                          ("table", a);
                          ("index", b)]])%list.
Proof.
  run_helper.
  repeat (split_reply; split_flag). all: split; reflexivity.
Qed.

(** C9, at the delete helper. Its request carries the identifier under the
    key [id]: the message has no [index] field, and [id] is not a field of
    the documented Request shape. *)
Theorem deleteRecordByIdGlobal_request (table id : JsVal) (env : Env) (w : World) :
  let fields :=
    [("operation", Str "deleteRecordById"); ("table", table); ("id", id)] in
  outbox (snd (deleteRecordByIdGlobal table id env w)) = (outbox w ++ [Obj fields])%list
  /\ lookup_field "index" fields = None
  /\ lookup_field "id" fields = Some id
  /\ documented "id" = false
  /\ uses_documented_fields (Obj fields) = false.
Proof.
  run_helper. split_reply; repeat split; reflexivity.
Qed.

End RecordAccess.

(** ** Properties of the watch helpers and of the redirect *)

Section Domain.

Lemma sum_loop_records (rest : list JsVal) :
  forall (seen : list JsVal) (times : list Z) (acc : Z) (env : Env) (w : World),
    map watch_time rest = map Some times ->
    sum_loop (Arr (seen ++ rest))
      (map Index (seq (List.length seen) (List.length rest))) (Num acc) env w
    = (Ret (Num (fold_left Z.add times acc)), w).
Proof.
  induction rest as [|record rest IH]; intros seen times acc env w Htimes.
  - destruct times; [reflexivity|discriminate].
  - destruct times as [|z times]; [discriminate|].
    injection Htimes as Hrecord Hrest.
    unfold watch_time in Hrecord.
    destruct record as [| | | | | | |fields]; try discriminate.
    destruct (lookup_field "total-watch-time" fields) as [[| | |n| | | |]|] eqn:Efield;
      try discriminate.
    injection Hrecord as ->.
    cbn [List.length seq map sum_loop].
    unfold bind at 1. unfold get at 1. cbn [nullish]. unfold ret at 1.
    cbn [own_property]. rewrite nth_middle.
    unfold bind at 1. unfold get at 1. cbn [nullish]. unfold ret at 1.
    cbn [own_property key_text]. rewrite Efield.
    change (js_add (Num acc) (Num z)) with (Num (acc + z)).
    specialize (IH (seen ++ [Obj fields])%list times (acc + z) env w Hrest).
    rewrite <- app_assoc, length_app in IH. cbn [List.length app] in IH.
    replace (List.length seen + 1)%nat with (S (List.length seen)) in IH by lia.
    exact IH.
Qed.

Lemma sum_loop_world (keys : list Key) :
  forall (v total : JsVal) (env : Env) (w : World),
    snd (sum_loop v keys total env w) = w.
Proof.
  induction keys as [|index keys IH]; intros v total env w; [reflexivity|].
  cbn [sum_loop]. unfold bind at 1. unfold get at 1.
  destruct (nullish v); [reflexivity|].
  unfold ret at 1. unfold bind at 1. unfold get at 1.
  destruct (nullish (own_property v index)); [reflexivity|].
  unfold ret at 1. apply IH.
Qed.

(** C4 as amended. The total is asked for with a select-all on
    [watch-times]; when the bridge answers with a set of records that each
    hold a numeric [total-watch-time], every field and every running total
    being a safe integer, the helper resolves to their sum, counted up from
    0;
    the two records 10 and 20 give 30; when the bridge rejects, the helper
    logs the error and resolves to undefined, which is not false. *)
Theorem getTotalWatchTime_sums (env : Env) (w : World) :
  let run := getTotalWatchTime env w in
  let message :=
    Obj [("operation", Str "selectAllRecords");
         ("table", Str "watch-times")] in
  outbox (snd run) = (outbox w ++ [message])%list
  /\ (forall (records : list JsVal) (times : list Z),
        worker env message = Response (Arr records) ->
        map watch_time records = map Some times ->
        sums_exactly times 0 = true ->
        fst run = Ret (Num (fold_left Z.add times 0)))
  /\ (forall m : string,
        worker env message = LastError m ->
        fst run = Ret Undefined /\ errors (snd run) = S (errors w))
  /\ fst (getTotalWatchTime (answering (Response two_records)) quiet) = Ret (Num 30)
  /\ Undefined <> Bool false.
Proof.
  cbv zeta. split; [|split; [|split; [|split; [reflexivity|discriminate]]]].
  - run_helper. split_reply; cbn [fst snd outbox console]; [|reflexivity].
    match goal with
    | |- context [sum_loop ?v ?ks ?a ?e ?x] =>
        pose proof (sum_loop_world ks v a e x) as Hworld;
        destruct (sum_loop v ks a e x) as [[total|c] w']
    end; cbn [snd] in Hworld; subst w'; reflexivity.
  - intros records times Hreply Htimes _. run_helper. rewrite Hreply.
    cbn [for_in_keys].
    match goal with
    | |- context [sum_loop _ _ _ _ ?x] =>
        pose proof (sum_loop_records records [] times 0 env x Htimes) as Eloop
    end.
    cbn [app List.length] in Eloop. rewrite Eloop. reflexivity.
  - intros m Hreply. run_helper. rewrite Hreply. cbn [fst snd outbox console].
    split; [reflexivity|count_errors].
Qed.

(** The sample set of two records, summed through the theorem. *)
Lemma getTotalWatchTime_sums_witness :
  fst (getTotalWatchTime (answering (Response two_records)) quiet)
  = Ret (Num (fold_left Z.add [10; 20] 0))
  /\ fst (getTotalWatchTime (answering (LastError "closed")) quiet) = Ret Undefined.
Proof.
  destruct (getTotalWatchTime_sums (answering (Response two_records)) quiet)
    as [_ [Hsum _]].
  destruct (getTotalWatchTime_sums (answering (LastError "closed")) quiet)
    as [_ [_ [Hrej _]]].
  split.
  - exact (Hsum _ [10; 20] eq_refl eq_refl eq_refl).
  - exact (proj1 (Hrej "closed" eq_refl)).
Defined.

(** C4 as stated fails beyond the safe integers: for the two records 2^53
    and 1 the sum is 2^53 + 1, which is no binary64 value; the loop of the
    code, run on binary64, ends at 2^53. *)
Lemma getTotalWatchTime_sums_counterexample :
  map watch_time [Obj [("total-watch-time", Num 9007199254740992)];
                  Obj [("total-watch-time", Num 1)]]
  = map Some [9007199254740992; 1]
  /\ map integer_value (map double_of_Z [9007199254740992; 1])
     = map Some [9007199254740992; 1]
  /\ fold_left Z.add [9007199254740992; 1] 0 = 9007199254740993
  /\ integer_value (sum_fields64 (map double_of_Z [9007199254740992; 1]))
     = Some 9007199254740992
  /\ ~ (forall times : list Z,
          integer_value (sum_fields64 (map double_of_Z times))
          = Some (fold_left Z.add times 0)).
Proof.
  split; [reflexivity|]. split; [vm_compute; reflexivity|].
  split; [reflexivity|]. split; [vm_compute; reflexivity|].
  intros H. specialize (H [9007199254740992; 1]).
  vm_compute in H. discriminate H.
Qed.


Lemma padded_two_digits (k : Z) :
  0 <= k < 100 -> padStart (string_of_Z k) 2 "0" = two_digits k.
Proof.
  intros Hk.
  assert (All : forallb
                  (fun i => String.eqb (padStart (string_of_Z (Z.of_nat i)) 2 "0")
                                       (two_digits (Z.of_nat i)))
                  (seq 0 100) = true) by (vm_compute; reflexivity).
  rewrite forallb_forall in All.
  specialize (All (Z.to_nat k)). rewrite Z2Nat.id in All by lia.
  apply String.eqb_eq, All, in_seq. lia.
Qed.

Lemma printed_four_digits (y : Z) :
  1000 <= y <= 9999 -> string_of_Z y = four_digits y.
Proof.
  intros Hy.
  assert (All : forallb
                  (fun i => String.eqb (string_of_Z (Z.of_nat i)) (four_digits (Z.of_nat i)))
                  (seq (Z.to_nat 1000) (Z.to_nat 9000)) = true) by (vm_compute; reflexivity).
  rewrite forallb_forall in All.
  specialize (All (Z.to_nat y)). rewrite Z2Nat.id in All by lia.
  apply String.eqb_eq, All, in_seq. lia.
Qed.

(** C6. For a clock whose month index is in 0..11 and day in 1..31, the date
    of today is the year as printed, then the month number and the day in
    two digits each, joined by hyphens (yyyy-MM-dd for a year of four
    digits), read from the local fields of the clock; the helper sends a
    filter request on [watch-times] with property [date] and that text as
    value, and resolves to whatever set the worker answers. *)
Theorem getCurrentWatchTimes_request (env : Env) (w : World) :
  0 <= getMonth (now env) <= 11 ->
  1 <= getDate (now env) <= 31 ->
  let run := getCurrentWatchTimes env w in
  let year := getFullYear (now env) in
  let month := getMonth (now env) + 1 in
  let day := getDate (now env) in
  let today := string_of_Z year ++ "-" ++ two_digits month ++ "-" ++ two_digits day in
  let message :=
    Obj [("operation", Str "filterRecords");
         ("table", Str "watch-times");
         ("property", Str "date");
         ("value", Str today)] in
  getCurrentDate env w = (Ret today, w)
  /\ outbox (snd run) = (outbox w ++ [message])%list
  /\ match worker env message with
     | Response records => fst run = Ret records
     | LastError _ => True
     end
  /\ (1000 <= year <= 9999 -> today = yyyy_MM_dd year month day).
Proof.
  intros Hmonth Hday. cbv zeta.
  run_helper.
  rewrite !padded_two_digits by lia.
  split; [reflexivity|].
  split_reply; cbn [fst snd outbox console].
  - split; [reflexivity|]. split; [reflexivity|].
    intros Hyear. unfold yyyy_MM_dd. rewrite printed_four_digits by lia.
    reflexivity.
  - split; [reflexivity|]. split; [exact I|].
    intros Hyear. unfold yyyy_MM_dd. rewrite printed_four_digits by lia.
    reflexivity.
Qed.

(** The request of 4 November 2024, through the theorem. *)
Lemma getCurrentWatchTimes_request_witness :
  (0 <= 10 <= 11 /\ 1 <= 4 <= 31)
  /\ outbox (snd (getCurrentWatchTimes (answering (Response two_records)) quiet))
     = [Obj [("operation", Str "filterRecords");
             ("table", Str "watch-times");
             ("property", Str "date");
             ("value", Str "2024-11-04")]]
  /\ fst (getCurrentWatchTimes (answering (Response two_records)) quiet)
     = Ret two_records.
Proof.
  split; [lia|].
  destruct (getCurrentWatchTimes_request (answering (Response two_records)) quiet
              ltac:(cbn; lia) ltac:(cbn; lia)) as [_ [Hsent [Hback _]]].
  split; [exact Hsent | exact Hback].
Defined.

(** C5. The lookup sends a filter request on [watch-modes] for [active]
    equal to true and resolves to the first element of the set that comes
    back; an empty set gives undefined, which is not the false that a
    rejected bridge call gives. *)
Theorem getCurrentWatchMode_first_match (env : Env) (w : World) :
  let run := getCurrentWatchMode env w in
  let message :=
    Obj [("operation", Str "filterRecords");
         ("table", Str "watch-modes");
         ("property", Str "active");
         ("value", Bool true)] in
  outbox (snd run) = (outbox w ++ [message])%list
  /\ match worker env message with
     | Response (Arr []) => fst run = Ret Undefined
     | Response (Arr (first :: _)) => fst run = Ret first
     | Response _ => True
     | LastError _ =>
         fst run = Ret (Bool false) /\ errors (snd run) = S (errors w)
     end
  /\ Undefined <> Bool false.
Proof.
  run_helper. split_reply.
  - split_flag; (split; [reflexivity|]); (split; [|discriminate]).
    + destruct response; try exact I; discriminate.
    + destruct response as [| | | | | |[|first rest]|]; try exact I; reflexivity.
  - cbn [fst snd outbox console].
    split; [reflexivity|]. split; [|discriminate].
    split; [reflexivity|count_errors].
Qed.

(** C10. Whatever arguments it is called with, the redirect sends the one
    fixed message, and it is the same computation for any two argument
    lists. *)
Theorem redirectUser_fixed_message (arguments : list JsVal) (env : Env) (w : World) :
  outbox (snd (redirectUser arguments env w))
  = (outbox w ++ [Obj [("redirect", Str "/html/dashboard.html")]])%list
  /\ forall others : list JsVal, redirectUser others = redirectUser arguments.
Proof.
  split; [|reflexivity].
  run_helper. split_reply; reflexivity.
Qed.

End Domain.

(** ** Further properties of the time formatter *)

Section FormatterMore.

Lemma append_cancel_l (a b c : string) : a ++ b = a ++ c -> b = c.
Proof.
  induction a as [|x a IH]; simpl; intros H; [exact H|].
  injection H as H. exact (IH H).
Qed.

Lemma read_back_below_hour (n : Z) (abbrArg : option bool) :
  0 <= n < 3600 ->
  seconds_of_text (text_string (convertTimeToText n abbrArg)) = n.
Proof.
  intros Hn.
  assert (All : forallb
                  (fun i =>
                     forallb
                       (fun a => seconds_of_text
                                   (text_string (convertTimeToText (Z.of_nat i) a))
                                 =? Z.of_nat i)
                       [None; Some true; Some false])
                  (seq 0 (Z.to_nat 3600)) = true) by (vm_compute; reflexivity).
  rewrite forallb_forall in All.
  specialize (All (Z.to_nat n)). rewrite Z2Nat.id in All by lia.
  assert (Hin : In (Z.to_nat n) (seq 0 (Z.to_nat 3600))) by (apply in_seq; lia).
  specialize (All Hin). rewrite forallb_forall in All.
  apply Z.eqb_eq, All.
  destruct abbrArg as [[|]|]; simpl; auto.
Qed.

(** X1. For every integer, negative ones included, and every second
    argument, the formatter returns a text: the end of the function without
    a [return] is never reached. *)
Theorem convertTimeToText_always_text (n : Z) (abbrArg : option bool) :
  exists s : string, convertTimeToText n abbrArg = Text s.
Proof.
  unfold convertTimeToText.
  destruct (n <? 60) eqn:E60; [eexists; reflexivity|].
  apply Z.ltb_ge in E60.
  replace (n >=? 60) with true by (symmetry; rewrite Z.geb_leb; apply Z.leb_le; lia).
  destruct (n <? 3600) eqn:E3600; [eexists; reflexivity|].
  apply Z.ltb_ge in E3600.
  replace (n >=? 3600) with true by (symmetry; rewrite Z.geb_leb; apply Z.leb_le; lia).
  eexists; reflexivity.
Qed.

(** X2. The abbreviation flag changes the text exactly between a minute and
    an hour: below 60 and from 3600 on the text is the same with and
    without it (hours are always written "Hr"/"Min"), and for
    60 <= n < 3600 the two texts differ. *)
Theorem convertTimeToText_abbreviation_scope (n : Z) :
  convertTimeToText n (Some true) = convertTimeToText n (Some false)
  <-> (n < 60 \/ 3600 <= n).
Proof.
  unfold convertTimeToText.
  destruct (n <? 60) eqn:E60.
  { apply Z.ltb_lt in E60. split; [intros _; left; lia|reflexivity]. }
  apply Z.ltb_ge in E60.
  replace (n >=? 60) with true by (symmetry; rewrite Z.geb_leb; apply Z.leb_le; lia).
  destruct (n <? 3600) eqn:E3600.
  - apply Z.ltb_lt in E3600. split; [|lia].
    intros H. exfalso. injection H as H.
    apply append_cancel_l in H.
    destruct (n / 60 =? 1); simpl in H; discriminate H.
  - apply Z.ltb_ge in E3600. split; [intros _; right; lia|reflexivity].
Qed.

(** X3. From an hour on the seconds are dropped: two durations that are
    safe integers with the same number of whole minutes, the first at least
    3600, get the same text, whatever the second arguments. *)
Theorem convertTimeToText_hours_drop_seconds (n n' : Z) (abbrArg abbrArg' : option bool) :
  3600 <= n <= MAX_SAFE_INTEGER ->
  n' <= MAX_SAFE_INTEGER ->
  n / 60 = n' / 60 ->
  convertTimeToText n abbrArg = convertTimeToText n' abbrArg'.
Proof.
  intros [Hn _] _ Hq.
  assert (Hn' : 3600 <= n').
  { pose proof (Z.div_le_mono 3600 n 60 ltac:(lia) Hn) as Hd.
    change (3600 / 60) with 60 in Hd.
    pose proof (Z.mul_div_le n' 60 ltac:(lia)). lia. }
  assert (Hparts : forall k, 3600 <= k ->
            k / 3600 = k / 60 / 60
            /\ (k - k / 3600 * 3600) / 60 = k / 60 - k / 60 / 60 * 60).
  { intros k Hk.
    assert (E : k / 3600 = k / 60 / 60) by (rewrite Z.div_div by lia; reflexivity).
    split; [exact E|].
    rewrite E.
    replace (k - k / 60 / 60 * 3600) with (k + (- (k / 60 / 60 * 60)) * 60) by lia.
    rewrite Z.div_add by lia. lia. }
  destruct (Hparts n Hn) as [Eh Em]. destruct (Hparts n' Hn') as [Eh' Em'].
  unfold convertTimeToText.
  replace (n <? 60) with false by (symmetry; apply Z.ltb_ge; lia).
  replace (n' <? 60) with false by (symmetry; apply Z.ltb_ge; lia).
  replace (n >=? 60) with true by (symmetry; rewrite Z.geb_leb; apply Z.leb_le; lia).
  replace (n' >=? 60) with true by (symmetry; rewrite Z.geb_leb; apply Z.leb_le; lia).
  replace (n <? 3600) with false by (symmetry; apply Z.ltb_ge; lia).
  replace (n' <? 3600) with false by (symmetry; apply Z.ltb_ge; lia).
  replace (n >=? 3600) with true by (symmetry; rewrite Z.geb_leb; apply Z.leb_le; lia).
  replace (n' >=? 3600) with true by (symmetry; rewrite Z.geb_leb; apply Z.leb_le; lia).
  cbv zeta. rewrite Em, Em', Eh, Eh', Hq. reflexivity.
Qed.

Lemma convertTimeToText_hours_drop_seconds_witness :
  3600 <= 3600 <= MAX_SAFE_INTEGER
  /\ 3659 <= MAX_SAFE_INTEGER
  /\ 3600 / 60 = 3659 / 60
  /\ convertTimeToText 3600 None = convertTimeToText 3659 (Some true).
Proof.
  assert (Hn : 3600 <= 3600 <= MAX_SAFE_INTEGER) by (unfold MAX_SAFE_INTEGER; lia).
  assert (Hn' : 3659 <= MAX_SAFE_INTEGER) by (unfold MAX_SAFE_INTEGER; lia).
  split; [exact Hn|]. split; [exact Hn'|]. split; [reflexivity|].
  exact (convertTimeToText_hours_drop_seconds 3600 3659 None (Some true)
           Hn Hn' eq_refl).
Defined.

(** X4. Below an hour no time is lost: two durations in 0..3599 that get the
    same text, with any second arguments, are equal. *)
Theorem convertTimeToText_injective_below_hour
        (n n' : Z) (abbrArg abbrArg' : option bool) :
  0 <= n < 3600 ->
  0 <= n' < 3600 ->
  convertTimeToText n abbrArg = convertTimeToText n' abbrArg' ->
  n = n'.
Proof.
  intros Hn Hn' E.
  rewrite <- (read_back_below_hour n abbrArg Hn).
  rewrite <- (read_back_below_hour n' abbrArg' Hn').
  rewrite E. reflexivity.
Qed.

Lemma convertTimeToText_injective_below_hour_witness :
  0 <= 125 < 3600
  /\ convertTimeToText 125 None = convertTimeToText 125 (Some false)
  /\ 125 = 125.
Proof.
  split; [lia|]. split; [reflexivity|].
  apply (convertTimeToText_injective_below_hour 125 125 None (Some false));
    [lia|lia|reflexivity].
Defined.

End FormatterMore.

(** ** Further properties of the record access helpers *)

Section RecordAccessMore.

Lemma try_catch_never_rejects {A : Type} (body : M A) (handler : Caught -> M A) :
  (forall c : Caught, never_rejects (handler c)) ->
  never_rejects (try_catch body handler).
Proof.
  intros Hhandler env w. unfold try_catch.
  destruct (body env w) as [[a|c] w'].
  - exists a. reflexivity.
  - apply Hhandler.
Qed.

Lemma log_then_value_never_rejects (args : list Printed) (v : JsVal) :
  never_rejects (console_error args ;; ret v).
Proof.
  intros env w. exists v. reflexivity.
Qed.

(** X5. None of the asynchronous helpers ever rejects: whatever the worker
    answers, and whether or not the bridge fails, each of the seven record
    access helpers, the two watch-time helpers and the watch-mode lookup
    resolves to a value; the redirect never throws either. *)
Theorem helpers_never_reject :
  (forall table property value, never_rejects (filterRecordsGlobal table property value))
  /\ (forall table, never_rejects (resetTableGlobal table))
  /\ (forall table, never_rejects (selectAllRecordsGlobal table))
  /\ (forall table id, never_rejects (selectRecordByIdGlobal table id))
  /\ (forall table property value newRecords,
        never_rejects (updateRecordByPropertyGlobal table property value newRecords))
  /\ (forall table id, never_rejects (deleteRecordByIdGlobal table id))
  /\ (forall table newRecords, never_rejects (insertRecordsGlobal table newRecords))
  /\ never_rejects getCurrentWatchTimes
  /\ never_rejects getTotalWatchTime
  /\ never_rejects getCurrentWatchMode
  /\ (forall arguments, never_rejects (redirectUser arguments)).
Proof.
  repeat split; intros;
    try (apply try_catch_never_rejects; intros c;
         apply log_then_value_never_rejects).
  intros env w. run_helper. split_reply; eexists; reflexivity.
Qed.

Ltac ambiguous :=
  unfold false_is_ambiguous; intros;
  eexists; run_helper; split_reply; cbn [fst snd outbox console];
  (split; [reflexivity|]);
  match goal with
  | E : worker _ _ = _ |- _ => rewrite E
  end;
  match goal with
  | |- context [errors ?x = S (errors ?w)] =>
      let H := fresh "Hcount" in
      first [ assert (H : errors x = errors w) by count_errors
            | assert (H : errors x = S (errors w)) by count_errors ];
      rewrite H
  end;
  repeat split; intros;
  repeat match goal with
    | H : _ \/ _ |- _ => destruct H
    | H : exists _, _ |- _ => destruct H
    | H : Response _ = Response _ |- _ => injection H as H; subst
    | H : Ret _ = Ret _ |- _ => injection H as H; subst
    end;
  try discriminate; try lia; try reflexivity;
  try (left; reflexivity); try (eexists; reflexivity);
  try (right; eexists; reflexivity).

(** X6. For the six helpers that pass the payload through, a result of
    [false] does not tell a failure from an answer: the helper resolves to
    false exactly when the worker answered false or the bridge rejected.
    The console does tell them apart: one more error exactly on rejection,
    none exactly on an answer. *)
Theorem false_result_is_ambiguous :
  (forall table property value,
      false_is_ambiguous (filterRecordsGlobal table property value))
  /\ (forall table, false_is_ambiguous (resetTableGlobal table))
  /\ (forall table, false_is_ambiguous (selectAllRecordsGlobal table))
  /\ (forall table id, false_is_ambiguous (selectRecordByIdGlobal table id))
  /\ (forall table id, false_is_ambiguous (deleteRecordByIdGlobal table id))
  /\ (forall table newRecords, false_is_ambiguous (insertRecordsGlobal table newRecords)).
Proof.
  repeat split; ambiguous.
Qed.

(** X7. On an answer from the worker, the filter, reset, select-all,
    select-by-id and insert helpers write nothing to the console. *)
Theorem helpers_quiet_on_success :
  (forall table property value,
      quiet_on_success (filterRecordsGlobal table property value))
  /\ (forall table, quiet_on_success (resetTableGlobal table))
  /\ (forall table, quiet_on_success (selectAllRecordsGlobal table))
  /\ (forall table id, quiet_on_success (selectRecordByIdGlobal table id))
  /\ (forall table newRecords, quiet_on_success (insertRecordsGlobal table newRecords)).
Proof.
  repeat split; unfold quiet_on_success; intros;
    eexists; run_helper; split_reply; cbn [fst snd outbox console];
    (split; [reflexivity|]);
    match goal with
    | E : worker _ _ = _ |- _ => rewrite E
    end; (reflexivity || exact I).
Qed.

(** X8. The delete helper always prints the table and the identifier before
    it sends the request; it then prints the worker's answer, or, when the
    bridge rejects, the rejection as an error. *)
Theorem deleteRecordByIdGlobal_console (table id : JsVal) (env : Env) (w : World) :
  let run := deleteRecordByIdGlobal table id env w in
  let message :=
    Obj [("operation", Str "deleteRecordById"); ("table", table); ("id", id)] in
  match worker env message with
  | Response result =>
      console (snd run)
      = (console w ++ [{| level := LevelLog; printed := [PVal table] |};
                       {| level := LevelLog; printed := [PVal id] |};
                       {| level := LevelLog; printed := [PVal result] |}])%list
  | LastError m =>
      console (snd run)
      = (console w ++ [{| level := LevelLog; printed := [PVal table] |};
                       {| level := LevelLog; printed := [PVal id] |};
                       {| level := LevelError;
                          printed := [PCaught (Rejection (lastError m))] |}])%list
  end.
Proof.
  run_helper. split_reply; cbn [fst snd outbox console];
    rewrite <- !app_assoc; reflexivity.
Qed.

(** X9. What the update helper prints and returns does not depend on the
    table or on the property it was called with, as long as the worker
    answers the two requests alike: the success line names the table
    [youtube-limitations] and the property [id] whatever was asked. *)
Theorem updateRecordByPropertyGlobal_log_fixed
        (table table' property property' value newRecords : JsVal)
        (env : Env) (w : World) :
  worker env (Obj [("operation", Str "updateRecordByProperty");
                   ("table", table);
                   ("property", property);
                   ("value", value);
                   ("newRecords", newRecords)])
  = worker env (Obj [("operation", Str "updateRecordByProperty");
                     ("table", table');
                     ("property", property');
                     ("value", value);
                     ("newRecords", newRecords)]) ->
  fst (updateRecordByPropertyGlobal table property value newRecords env w)
  = fst (updateRecordByPropertyGlobal table' property' value newRecords env w)
  /\ console (snd (updateRecordByPropertyGlobal table property value newRecords env w))
     = console (snd (updateRecordByPropertyGlobal table' property' value newRecords env w)).
Proof.
  intros Hsame. run_helper. rewrite Hsame.
  split_reply; split_flag; split; reflexivity.
Qed.

Lemma updateRecordByPropertyGlobal_log_fixed_witness :
  console (snd (updateRecordByPropertyGlobal (Str "schedules") (Str "name") (Num 1)
                  (Obj [("active", Bool true)])
                  (answering (Response (Obj []))) quiet))
  = console (snd (updateRecordByPropertyGlobal (Str "youtube-limitations") (Str "id")
                    (Num 1) (Obj [("active", Bool true)])
                    (answering (Response (Obj []))) quiet)).
Proof.
  exact (proj2 (updateRecordByPropertyGlobal_log_fixed
                  (Str "schedules") (Str "youtube-limitations") (Str "name") (Str "id")
                  (Num 1) (Obj [("active", Bool true)])
                  (answering (Response (Obj []))) quiet eq_refl)).
Defined.

End RecordAccessMore.

(** ** Further properties of the watch-time helpers *)

Section TotalMore.

Lemma sum_loop_turn (seen rest : list JsVal) (record totalTime : JsVal)
      (env : Env) (w : World) :
  nullish record = false ->
  sum_loop (Arr (seen ++ record :: rest))
    (map Index (seq (List.length seen) (S (List.length rest)))) totalTime env w
  = sum_loop (Arr ((seen ++ [record]) ++ rest))
      (map Index (seq (List.length (seen ++ [record])) (List.length rest)))
      (add_time totalTime record) env w.
Proof.
  intros Hrecord.
  cbn [seq map sum_loop].
  unfold bind at 1. unfold get at 1. cbn [nullish]. unfold ret at 1.
  cbn [own_property]. rewrite nth_middle.
  unfold bind at 1. unfold get at 1. rewrite Hrecord. unfold ret at 1.
  rewrite <- app_assoc, length_app. cbn [List.length app].
  replace (List.length seen + 1)%nat with (S (List.length seen)) by lia.
  reflexivity.
Qed.

Lemma sum_loop_fold (rest : list JsVal) :
  forall (seen : list JsVal) (totalTime : JsVal) (env : Env) (w : World),
    existsb nullish rest = false ->
    sum_loop (Arr (seen ++ rest))
      (map Index (seq (List.length seen) (List.length rest))) totalTime env w
    = (Ret (fold_left add_time rest totalTime), w).
Proof.
  induction rest as [|record rest IH]; intros seen totalTime env w Hrest;
    [reflexivity|].
  cbn [existsb] in Hrest. apply orb_false_iff in Hrest as [Hrecord Hrest].
  cbn [List.length]. rewrite sum_loop_turn by exact Hrecord.
  rewrite IH by exact Hrest. reflexivity.
Qed.

Lemma sum_loop_null_element (rest : list JsVal) :
  forall (seen : list JsVal) (totalTime : JsVal) (env : Env) (w : World),
    existsb nullish rest = true ->
    sum_loop (Arr (seen ++ rest))
      (map Index (seq (List.length seen) (List.length rest))) totalTime env w
    = (Throw TypeError, w).
Proof.
  induction rest as [|record rest IH]; intros seen totalTime env w Hrest;
    [discriminate|].
  cbn [existsb] in Hrest.
  destruct (nullish record) eqn:Hrecord.
  - cbn [List.length seq map sum_loop].
    unfold bind at 1. unfold get at 1. cbn [nullish]. unfold ret at 1.
    cbn [own_property]. rewrite nth_middle.
    unfold bind at 1. unfold get at 1. rewrite Hrecord. reflexivity.
  - cbn [List.length]. rewrite sum_loop_turn by exact Hrecord.
    apply IH. exact Hrest.
Qed.

Lemma getTotalWatchTime_on_array (env : Env) (w : World) (records : list JsVal) :
  worker env selectAll_watch_times = Response (Arr records) ->
  existsb nullish records = false ->
  getTotalWatchTime env w
  = (Ret (fold_left add_time records (Num 0)),
     {| console := console w;
        outbox := outbox w ++ [selectAll_watch_times] |}).
Proof.
  unfold selectAll_watch_times. intros Hreply Hrecords.
  run_helper. rewrite Hreply. cbn [for_in_keys].
  match goal with
  | |- context [sum_loop _ _ _ _ ?x] =>
      pose proof (sum_loop_fold records [] (Num 0) env x Hrecords) as Eloop
  end.
  cbn [app List.length] in Eloop. rewrite Eloop. reflexivity.
Qed.

Lemma fold_after_NaN (rest : list JsVal) :
  forallb (fun r => has_number r || lacks_time r) rest = true ->
  fold_left add_time rest NaN = NaN.
Proof.
  induction rest as [|record rest IH]; intros Hrest; [reflexivity|].
  cbn [forallb] in Hrest. apply andb_true_iff in Hrest as [Hrecord Hrest].
  cbn [fold_left].
  replace (add_time NaN record) with NaN; [exact (IH Hrest)|].
  unfold add_time, has_number, lacks_time in *.
  destruct (time_field record); try discriminate; reflexivity.
Qed.

Lemma fold_reaches_NaN (rest : list JsVal) :
  forall acc : Z,
    forallb (fun r => has_number r || lacks_time r) rest = true ->
    existsb lacks_time rest = true ->
    fold_left add_time rest (Num acc) = NaN.
Proof.
  induction rest as [|record rest IH]; intros acc Hrest Hsome; [discriminate|].
  cbn [forallb] in Hrest. apply andb_true_iff in Hrest as [Hrecord Hrest].
  cbn [existsb] in Hsome. cbn [fold_left].
  unfold add_time at 2. unfold has_number, lacks_time in Hrecord, Hsome.
  destruct (time_field record) eqn:Efield; try discriminate.
  - apply fold_after_NaN. exact Hrest.
  - change (js_add (Num acc) (Num n)) with (Num (acc + n)).
    apply IH; [exact Hrest|exact Hsome].
Qed.



Lemma fold_add_from (times : list Z) :
  forall acc : Z, fold_left Z.add times acc = acc + fold_left Z.add times 0.
Proof.
  induction times as [|z times IH]; intros acc; cbn [fold_left]; [lia|].
  rewrite (IH (acc + z)), (IH (0 + z)). lia.
Qed.

Lemma fold_add_permutation (times times' : list Z) :
  Permutation times times' ->
  fold_left Z.add times 0 = fold_left Z.add times' 0.
Proof.
  induction 1 as [|z l l' _ IH|y z l|l l' l'' _ IH1 _ IH2]; cbn [fold_left].
  - reflexivity.
  - rewrite (fold_add_from l), (fold_add_from l'), IH. reflexivity.
  - rewrite (fold_add_from l (0 + z + y)), (fold_add_from l (0 + y + z)). lia.
  - congruence.
Qed.

(** X10. A worker answer that [for-in] visits nothing of (undefined, null, a
    boolean, a number, an empty array, string or object) makes the total 0,
    with nothing printed: it cannot be told from an empty table. *)
Theorem getTotalWatchTime_nothing_to_visit (env : Env) (w : World) :
  match worker env selectAll_watch_times with
  | Response (Undefined | Null | Bool _ | Num _ | NaN)
  | Response (Arr []) | Response (Str EmptyString) | Response (Obj []) =>
      getTotalWatchTime env w
      = (Ret (Num 0),
         {| console := console w;
            outbox := outbox w ++ [selectAll_watch_times] |})
  | _ => True
  end.
Proof.
  unfold selectAll_watch_times. run_helper. split_reply; [|exact I].
  destruct response as [| | | | |[|c s]|[|r l]|[|f l]]; try exact I; reflexivity.
Qed.

(** X11. When the answer is an array with an undefined or null element, the
    read of its [total-watch-time] throws: the helper prints that one error
    and resolves to undefined, whatever the other records hold. *)
Theorem getTotalWatchTime_null_element (env : Env) (w : World) (records : list JsVal) :
  worker env selectAll_watch_times = Response (Arr records) ->
  existsb nullish records = true ->
  getTotalWatchTime env w
  = (Ret Undefined,
     {| console := console w ++ [{| level := LevelError; printed := [PCaught TypeError] |}];
        outbox := outbox w ++ [selectAll_watch_times] |}).
Proof.
  unfold selectAll_watch_times. intros Hreply Hrecords.
  run_helper. rewrite Hreply. cbn [for_in_keys].
  match goal with
  | |- context [sum_loop _ _ _ _ ?x] =>
      pose proof (sum_loop_null_element records [] (Num 0) env x Hrecords) as Eloop
  end.
  cbn [app List.length] in Eloop. rewrite Eloop. reflexivity.
Qed.

Lemma getTotalWatchTime_null_element_witness :
  fst (getTotalWatchTime
         (answering (Response (Arr [Obj [("total-watch-time", Num 10)]; Null]))) quiet)
  = Ret Undefined.
Proof.
  rewrite (getTotalWatchTime_null_element
             (answering (Response (Arr [Obj [("total-watch-time", Num 10)]; Null])))
             quiet [Obj [("total-watch-time", Num 10)]; Null] eq_refl eq_refl).
  reflexivity.
Defined.

(** X12. When every element of the answered array can be read and holds a
    number or no [total-watch-time] at all, one element without it is enough
    to make the total NaN; nothing is printed. *)
Theorem getTotalWatchTime_missing_field (env : Env) (w : World) (records : list JsVal) :
  worker env selectAll_watch_times = Response (Arr records) ->
  existsb nullish records = false ->
  forallb (fun r => has_number r || lacks_time r) records = true ->
  existsb lacks_time records = true ->
  getTotalWatchTime env w
  = (Ret NaN,
     {| console := console w;
        outbox := outbox w ++ [selectAll_watch_times] |}).
Proof.
  intros Hreply Hread Hshape Hmissing.
  rewrite (getTotalWatchTime_on_array env w records Hreply Hread).
  rewrite (fold_reaches_NaN records 0 Hshape Hmissing). reflexivity.
Qed.

Lemma getTotalWatchTime_missing_field_witness :
  fst (getTotalWatchTime
         (answering (Response (Arr [Obj [("total-watch-time", Num 10)];
                                    Obj [("date", Str "2024-11-04")]]))) quiet)
  = Ret NaN.
Proof.
  rewrite (getTotalWatchTime_missing_field
             (answering (Response (Arr [Obj [("total-watch-time", Num 10)];
                                        Obj [("date", Str "2024-11-04")]])))
             quiet
             [Obj [("total-watch-time", Num 10)]; Obj [("date", Str "2024-11-04")]]
             eq_refl eq_refl eq_refl eq_refl).
  reflexivity.
Defined.



(** X14. The total does not depend on the order in which the worker lists
    the records, as long as no addition rounds: two answers that are
    permutations of each other, made of records whose [total-watch-time]
    are integers from 0 on with a sum of at most [MAX_SAFE_INTEGER], resolve
    to the same total. *)
Theorem getTotalWatchTime_order_free
        (env env' : Env) (w w' : World) (records records' : list JsVal) (times : list Z) :
  worker env selectAll_watch_times = Response (Arr records) ->
  worker env' selectAll_watch_times = Response (Arr records') ->
  map watch_time records = map Some times ->
  forallb (fun z => 0 <=? z) times = true ->
  fold_left Z.add times 0 <= MAX_SAFE_INTEGER ->
  Permutation records records' ->
  fst (getTotalWatchTime env w) = fst (getTotalWatchTime env' w').
Proof.
  unfold selectAll_watch_times. intros Hreply Hreply' Htimes _ _ Hperm.
  assert (Hperm' : Permutation (map Some times) (map watch_time records')).
  { rewrite <- Htimes. apply Permutation_map. exact Hperm. }
  apply Permutation_sym, Permutation_map_inv in Hperm'.
  destruct Hperm' as [times' [Htimes' Hperm']].
  run_helper. rewrite Hreply, Hreply'. cbn [for_in_keys].
  repeat match goal with
    | |- context [sum_loop (Arr records) _ _ _ ?x] =>
        let E := fresh "Eloop" in
        pose proof (sum_loop_records records [] times 0 env x Htimes) as E;
        cbn [app List.length] in E; rewrite E; clear E
    | |- context [sum_loop (Arr records') _ _ _ ?x] =>
        let E := fresh "Eloop" in
        pose proof (sum_loop_records records' [] times' 0 env' x Htimes') as E;
        cbn [app List.length] in E; rewrite E; clear E
    end.
  cbn [fst]. rewrite (fold_add_permutation times times' Hperm'). reflexivity.
Qed.

Lemma getTotalWatchTime_order_free_witness :
  fst (getTotalWatchTime (answering (Response two_records)) quiet)
  = fst (getTotalWatchTime
           (answering (Response (Arr [Obj [("total-watch-time", Num 20)];
                                      Obj [("total-watch-time", Num 10)]]))) quiet).
Proof.
  apply (getTotalWatchTime_order_free _ _ _ _
           [Obj [("total-watch-time", Num 10)]; Obj [("total-watch-time", Num 20)]]
           [Obj [("total-watch-time", Num 20)]; Obj [("total-watch-time", Num 10)]]
           [10; 20]);
    [reflexivity|reflexivity|reflexivity|reflexivity
    |unfold MAX_SAFE_INTEGER; cbn; lia|apply perm_swap].
Defined.

End TotalMore.

(** ** How the domain helpers relate to the record access helpers *)

Section Through.

(** X15. The watch-mode lookup is the filter helper on [watch-modes],
    [active], true, followed by a read of element 0: on a rejection the two
    behave alike; on an answer that can be indexed the lookup returns its
    element 0 and leaves the same world; on an answer of undefined or null,
    which the filter helper hands back as it is, the lookup prints a
    TypeError and resolves to false, as on a rejection. *)
Theorem getCurrentWatchMode_through_filter (env : Env) (w : World) :
  let direct := filterRecordsGlobal (Str "watch-modes") (Str "active") (Bool true) env w in
  let run := getCurrentWatchMode env w in
  let message :=
    Obj [("operation", Str "filterRecords");
         ("table", Str "watch-modes");
         ("property", Str "active");
         ("value", Bool true)] in
  match worker env message with
  | LastError _ => run = direct
  | Response data =>
      fst direct = Ret data
      /\ if nullish data
         then run = (Ret (Bool false),
                     {| console := console w ++
                                   [{| level := LevelError;
                                       printed := [PCaught TypeError] |}];
                        outbox := outbox (snd direct) |})
         else run = (Ret (own_property data (Index 0)), snd direct)
  end.
Proof.
  run_helper. split_reply; [|reflexivity].
  split_flag; split; reflexivity.
Qed.

(** X16. The helper for today's watch times is the filter helper on
    [watch-times], [date] and today's date as long as the worker answers:
    same result, same world.  On a rejection both send the same request and
    print one error, but this helper resolves to undefined where the filter
    helper resolves to false, and it prints a label before the error. *)
Theorem getCurrentWatchTimes_through_filter (env : Env) (w : World) :
  exists today : string,
    getCurrentDate env w = (Ret today, w)
    /\ let direct :=
         filterRecordsGlobal (Str "watch-times") (Str "date") (Str today) env w in
       let run := getCurrentWatchTimes env w in
       let message :=
         Obj [("operation", Str "filterRecords");
              ("table", Str "watch-times");
              ("property", Str "date");
              ("value", Str today)] in
       match worker env message with
       | Response _ => run = direct
       | LastError m =>
           fst run = Ret Undefined
           /\ fst direct = Ret (Bool false)
           /\ outbox (snd run) = outbox (snd direct)
           /\ console (snd run)
              = (console w ++
                 [{| level := LevelError;
                     printed := [PVal (Str "Error fetching current watch times:");
                                 PCaught (Rejection (lastError m))] |}])%list
           /\ console (snd direct)
              = (console w ++
                 [{| level := LevelError;
                     printed := [PCaught (Rejection (lastError m))] |}])%list
       end.
Proof.
  eexists. split; [run_helper; reflexivity|].
  run_helper. split_reply; [reflexivity|].
  cbn [fst snd outbox console]. repeat split; reflexivity.
Qed.

(** X17. The redirect prints exactly one line and returns: the worker's
    response as a log, or, when [lastError] is set, the text of its message
    as an error; one message has been sent in either case. *)
Theorem redirectUser_console (arguments : list JsVal) (env : Env) (w : World) :
  match worker env (Obj [("redirect", Str "/html/dashboard.html")]) with
  | Response response =>
      redirectUser arguments env w
      = (Ret tt,
         {| console := console w ++ [{| level := LevelLog; printed := [PVal response] |}];
            outbox := outbox w ++ [Obj [("redirect", Str "/html/dashboard.html")]] |})
  | LastError m =>
      redirectUser arguments env w
      = (Ret tt,
         {| console := console w ++ [{| level := LevelError; printed := [PVal (Str m)] |}];
            outbox := outbox w ++ [Obj [("redirect", Str "/html/dashboard.html")]] |})
  end.
Proof.
  run_helper. split_reply; reflexivity.
Qed.

Lemma digit_char_injective (a b : Z) :
  0 <= a <= 9 -> 0 <= b <= 9 ->
  ascii_of_nat (48 + Z.to_nat a) = ascii_of_nat (48 + Z.to_nat b) -> a = b.
Proof.
  intros Ha Hb E. apply (f_equal nat_of_ascii) in E.
  rewrite !nat_ascii_embedding in E by lia. lia.
Qed.

Lemma Ret_injective {A : Type} (a b : A) : Ret a = Ret b -> a = b.
Proof.
  intros E. injection E as E. exact E.
Qed.

Lemma digit_injective (a b : Z) :
  0 <= a <= 9 -> 0 <= b <= 9 -> digit a = digit b -> a = b.
Proof.
  intros Ha Hb E. unfold digit in E. injection E as E.
  exact (digit_char_injective a b Ha Hb E).
Qed.

Lemma digit_app_injective (a b : Z) (s s' : string) :
  0 <= a <= 9 -> 0 <= b <= 9 ->
  digit a ++ s = digit b ++ s' -> a = b /\ s = s'.
Proof.
  intros Ha Hb E. unfold digit in E. cbn [append] in E.
  injection E as E Es.
  split; [exact (digit_char_injective a b Ha Hb E)|exact Es].
Qed.

(** X18. Two clock readings with four-digit years, month indexes in 0..11
    and days in 1..31 that give the same date text are the same reading:
    the text used as the [date] of a record names one day only. *)
Theorem getCurrentDate_injective (env env' : Env) (w w' : World) :
  plain_date (now env) ->
  plain_date (now env') ->
  fst (getCurrentDate env w) = fst (getCurrentDate env' w') ->
  now env = now env'.
Proof.
  intros [Hy [Hm Hd]] [Hy' [Hm' Hd']].
  run_helper.
  destruct (now env) as [y m d]. destruct (now env') as [y' m' d'].
  cbn [getFullYear getMonth getDate] in *.
  rewrite !padded_two_digits, !printed_four_digits by lia.
  unfold four_digits, two_digits. rewrite !append_assoc.
  intros E. apply Ret_injective in E.
  assert (Hdigit : forall k, 0 <= k mod 10 <= 9)
    by (intros k; pose proof (Z.mod_pos_bound k 10 ltac:(lia)); lia).
  assert (Hlead : forall k bound, 0 <= k <= bound * 10 + 9 -> 0 <= bound ->
                                  0 <= k / 10 <= bound).
  { intros k bound Hk Hb. split; [apply Z.div_pos; lia|].
    pose proof (Z.div_lt_upper_bound k 10 (bound + 1) ltac:(lia) ltac:(lia)). lia. }
  assert (Hthousands : forall k, 1000 <= k <= 9999 -> 0 <= k / 1000 <= 9).
  { intros k Hk. split; [apply Z.div_pos; lia|].
    pose proof (Z.div_lt_upper_bound k 1000 10 ltac:(lia) ltac:(lia)). lia. }
  apply digit_app_injective in E as [E1 E];
    [|apply Hthousands; lia|apply Hthousands; lia].
  apply digit_app_injective in E as [E2 E]; [|apply Hdigit|apply Hdigit].
  apply digit_app_injective in E as [E3 E]; [|apply Hdigit|apply Hdigit].
  apply digit_app_injective in E as [E4 E]; [|apply Hdigit|apply Hdigit].
  apply (append_cancel_l "-") in E.
  apply digit_app_injective in E as [E5 E];
    [|apply (Hlead _ 9); lia|apply (Hlead _ 9); lia].
  apply digit_app_injective in E as [E6 E]; [|apply Hdigit|apply Hdigit].
  apply (append_cancel_l "-") in E.
  apply digit_app_injective in E as [E7 E];
    [|apply (Hlead _ 9); lia|apply (Hlead _ 9); lia].
  apply digit_injective in E; [|apply Hdigit|apply Hdigit].
  assert (y = y' /\ m = m' /\ d = d') as [-> [-> ->]]; [|reflexivity].
  clear - E1 E2 E3 E4 E5 E6 E7 E.
  Z.div_mod_to_equations. lia.
Qed.

Lemma getCurrentDate_injective_witness :
  plain_date some_day
  /\ now (answering (Response Null)) = now (answering (LastError "closed")).
Proof.
  assert (H : plain_date some_day) by (unfold plain_date; cbn; lia).
  split; [exact H|].
  exact (getCurrentDate_injective (answering (Response Null))
           (answering (LastError "closed")) quiet quiet H H eq_refl).
Defined.

End Through.

(** ** Properties of the notification banner *)

Section Banners.

Lemma notify_all_snoc (b : Banner) (calls : list Notice) (n : Notice) :
  notify_all b (calls ++ [n])
  = notify (notify_all b calls) (notice_msg n) (notice_color n) (notice_icon n)
      (notice_delay n) (notice_persistent n).
Proof.
  unfold notify_all. rewrite fold_left_app. reflexivity.
Qed.

Lemma notify_queue (b : Banner) (n : Notice) :
  queue (notify b (notice_msg n) (notice_color n) (notice_icon n)
           (notice_delay n) (notice_persistent n))
  = (queue b ++ effects_of n)%list.
Proof.
  unfold notify, displayNotifications, effects_of, persistent.
  destruct (notice_persistent n) as [[|]|]; cbn;
    rewrite <- ?app_assoc; reflexivity.
Qed.

(** X19. After any series of calls the banner shows the last call: its
    icon, its message, its color on both the icon and the accent, and an
    inline display of flex; nothing of the earlier calls is left in the
    content. *)
Theorem displayNotifications_last_call_wins
        (b : Banner) (calls : list Notice) (n : Notice) :
  let b' := notify_all b (calls ++ [n]) in
  icon b' = notice_icon n
  /\ icon_color b' = notice_color n
  /\ paragraph b' = notice_msg n
  /\ accent b' = notice_color n
  /\ display b' = Some "flex".
Proof.
  cbv zeta. rewrite notify_all_snoc.
  unfold notify, displayNotifications.
  destruct (notice_persistent n) as [[|]|]; cbn; repeat split; reflexivity.
Qed.

(** X20. The effects of the calls pile up in call order and none is ever
    removed: each call adds a fade-in of 1000 and, unless it is persistent,
    a delay of its [delayTime] and a fade-out of 1000; a persistent call
    makes no use of its [delayTime]. *)
Theorem displayNotifications_effects_pile_up (b : Banner) (calls : list Notice) :
  queue (notify_all b calls) = (queue b ++ flat_map effects_of calls)%list.
Proof.
  revert b. induction calls as [|n calls IH]; intros b.
  - cbn. rewrite app_nil_r. reflexivity.
  - change (notify_all b (n :: calls))
      with (notify_all (notify b (notice_msg n) (notice_color n) (notice_icon n)
                          (notice_delay n) (notice_persistent n)) calls).
    rewrite IH, notify_queue. cbn [flat_map]. rewrite app_assoc. reflexivity.
Qed.

(** X21. Once all queued effects have run, the banner is shown exactly when
    the last call was persistent, whatever was queued before and whether or
    not the banner was shown at the start. *)
Theorem displayNotifications_settles
        (b : Banner) (calls : list Notice) (n : Notice) (shown : bool) :
  settle shown (queue (notify_all b (calls ++ [n]))) = persistent n.
Proof.
  rewrite notify_all_snoc, notify_queue.
  unfold settle. rewrite fold_left_app.
  unfold effects_of. destruct (persistent n); reflexivity.
Qed.

End Banners.
